(** * Reddit keyword scraper: a shallow embedding of [reddit_scraper.py]

    The development follows the script top to bottom: the Python values
    that end up in a row, the objects handed out by the Reddit client, the
    search-and-flatten loop [search_reddit] and the CSV writer
    [save_to_csv].  Dictionaries are finite maps keyed by strings, the
    [results] list is threaded through the loops as an accumulator, and the
    file system and standard output are an explicit state. *)

From Stdlib Require Import ZArith String Ascii List.
From stdpp Require Import base strings gmap sorting pretty list.

Local Open Scope Z_scope.

(** ** Python values stored in a row *)

Inductive value : Type :=
  | VStr (s : string)
  | VInt (z : Z)
  | VBool (b : bool).

#[global] Instance value_eq_dec : EqDecision value.
Proof. solve_decision. Defined.

(** A row is a Python [dict] from field names to values. *)
Abbreviation record := (gmap string value).

(** A dict display [{k1: v1, ..., kn: vn}]: the pairs are stored from left
    to right, a later pair replacing an earlier one with the same key. *)
Definition py_dict (items : list (string * value)) : record :=
  foldl (λ d kv, <[kv.1 := kv.2]> d) ∅ items.

(** ** Built-ins of the Python runtime

    [str.lower] is Unicode case mapping and
    [datetime.fromtimestamp(t).strftime('%Y-%m-%d %H:%M:%S')] depends on the
    local time zone; both belong to the interpreter, so the embedding takes
    them as an interface.  [ascii_builtins] below is one instance. *)

Class Builtins : Type := {
  str_lower : string → string;
  fromtimestamp_strftime : Z → string
}.

(** ASCII case folding, bytes above 127 untouched. *)
Definition ascii_lower (c : ascii) : ascii :=
  let n := N_of_ascii c in
  if ((65 <=? n) && (n <=? 90))%N then ascii_of_N (n + 32) else c.

Fixpoint ascii_str_lower (s : string) : string :=
  match s with
  | EmptyString => EmptyString
  | String c t => String (ascii_lower c) (ascii_str_lower t)
  end.

(** [needle in hay] on strings: [needle] occurs at some offset of [hay]. *)
Fixpoint str_in (needle hay : string) {struct hay} : bool :=
  String.prefix needle hay ||
  match hay with
  | EmptyString => false
  | String _ rest => str_in needle rest
  end.

(** Truth value of a string: empty is false. *)
Definition str_truthy (s : string) : bool :=
  match s with EmptyString => false | String _ _ => true end.

(** Truth value of an attribute holding an object or [None]: a [Redditor]
    instance is true, [None] is false. *)
Definition obj_truthy {A : Type} (o : option A) : bool :=
  match o with None => false | Some _ => true end.

(** [str(x)] on an author attribute: a [Redditor] prints as its name, the
    [None] of a deleted account prints as the text of [None]. *)
Definition str_author (a : option string) : string :=
  match a with Some name => name | None => "None" end.

Definition dquote : string := String "034"%char EmptyString.

(** ** Objects handed out by the Reddit client *)

Module Comment.
Record t : Type := {
  author : option string;
  score : Z;
  id : string;
  created_utc : Z;
  body : string
}.
End Comment.

Module Submission.
Record t : Type := {
  title : string;
  author : option string;
  subreddit_display_name : string;
  score : Z;
  permalink : string;
  created_utc : Z;
  id : string;
  is_self : bool;
  selftext : string;
  (** [comments.list()] once [replace_more(limit=0)] has run *)
  comments : list Comment.t
}.
End Submission.

(** [reddit.subreddit(name).search(query, sort, time_filter, limit)],
    already drained into the list of submissions the generator yields. *)
Record Reddit : Type := {
  subreddit_search : string → string → string → string → Z → list Submission.t
}.

(** ** search_reddit *)

Section pipeline.
Context `{Builtins}.

(** Lines 46-63: the post row. *)
Definition post_data (keyword : string) (submission : Submission.t) : record :=
  let post_data := py_dict [
    ("keyword", VStr keyword);
    ("title", VStr (Submission.title submission));
    ("author", VStr (str_author (Submission.author submission)));
    ("subreddit", VStr (Submission.subreddit_display_name submission));
    ("score", VInt (Submission.score submission));
    ("url", VStr ("https://www.reddit.com" +:+ Submission.permalink submission));
    ("created_utc", VStr (fromtimestamp_strftime (Submission.created_utc submission)));
    ("post_id", VStr (Submission.id submission));
    ("is_self_post", VBool (Submission.is_self submission));
    ("content_type", VStr "submission")
  ] in
  if Submission.is_self submission && str_truthy (Submission.selftext submission)
  then <["content" := VStr (Submission.selftext submission)]> post_data
  else <["content" := VStr "[External link]"]> post_data.

(** Lines 71-83: the comment row. *)
Definition comment_data (keyword : string) (submission : Submission.t)
    (comment : Comment.t) : record :=
  py_dict [
    ("keyword", VStr keyword);
    ("title", VStr (Submission.title submission));
    ("author", VStr (if obj_truthy (Comment.author comment)
                     then str_author (Comment.author comment)
                     else "[deleted]"));
    ("subreddit", VStr (Submission.subreddit_display_name submission));
    ("score", VInt (Comment.score comment));
    ("url", VStr ("https://www.reddit.com" +:+ Submission.permalink submission
                    +:+ Comment.id comment +:+ "/"));
    ("created_utc", VStr (fromtimestamp_strftime (Comment.created_utc comment)));
    ("post_id", VStr (Comment.id comment));
    ("is_self_post", VBool true);
    ("content", VStr (Comment.body comment));
    ("content_type", VStr "comment")
  ].

(** Lines 70-84: one turn of the comment loop on the accumulator. *)
Definition comment_step (keyword : string) (submission : Submission.t)
    (results : list record) (comment : Comment.t) : list record :=
  if str_in (str_lower keyword) (str_lower (Comment.body comment))
  then results ++ [comment_data keyword submission comment]
  else results.

(** Lines 44-84: one turn of the submission loop. *)
Definition submission_step (keyword : string) (results : list record)
    (submission : Submission.t) : list record :=
  let results := results ++ [post_data keyword submission] in
  foldl (comment_step keyword submission) results (Submission.comments submission).

(** Lines 35-41: the search issued for one keyword. *)
Definition submissions_for (reddit : Reddit) (subreddit : option string)
    (limit : Z) (time_filter : string) (keyword : string) : list Submission.t :=
  let query := dquote +:+ keyword +:+ dquote in
  match subreddit with
  | Some name =>
      if str_truthy name
      then subreddit_search reddit name query "new" time_filter limit
      else subreddit_search reddit "all" query "new" time_filter limit
  | None => subreddit_search reddit "all" query "new" time_filter limit
  end.

(** Lines 34-84: one turn of the keyword loop. *)
Definition keyword_step (reddit : Reddit) (subreddit : option string)
    (limit : Z) (time_filter : string) (results : list record)
    (keyword : string) : list record :=
  foldl (submission_step keyword) results
    (submissions_for reddit subreddit limit time_filter keyword).

Definition search_reddit (reddit : Reddit) (keywords : list string)
    (subreddit : option string) (limit : Z) (time_filter : string) : list record :=
  foldl (keyword_step reddit subreddit limit time_filter) [] keywords.

(** *** The shape of the output

    What the three nested loops append, written as plain list functions;
    [search_reddit_blocks] below proves that the loops compute exactly this. *)

(** The rows of the comments of [submission] that pass the test of line 70,
    in the order of [comments.list()]. *)
Definition comment_rows (keyword : string) (submission : Submission.t) : list record :=
  comment_data keyword submission <$>
    filter (λ comment, str_in (str_lower keyword) (str_lower (Comment.body comment)))
           (Submission.comments submission).

(** A post row directly followed by the rows of its own comments. *)
Definition submission_block (keyword : string) (submission : Submission.t) : list record :=
  post_data keyword submission :: comment_rows keyword submission.

(** Everything one entry of the keyword list contributes. *)
Definition keyword_block (reddit : Reddit) (subreddit : option string)
    (limit : Z) (time_filter : string) (keyword : string) : list record :=
  submissions_for reddit subreddit limit time_filter keyword ≫= submission_block keyword.

End pipeline.

(** ** save_to_csv *)

(** What the script can touch outside its own variables: files, as the rows
    of cells handed to the [csv] writer, the lines printed so far, and the
    paths on which [open(path, 'w')] succeeds (an empty path, a path in a
    missing directory or one without write permission is not among them). *)
Record World : Type := {
  files : gmap string (list (list string));
  stdout : list string;
  writable : string → bool
}.

Definition print (line : string) (w : World) : World :=
  {| files := files w; stdout := stdout w ++ [line]; writable := writable w |}.

(** [open(filename, 'w')] on a path that opens creates the file or truncates
    it; [write_file] stores what has been written when the [with] block
    ends. *)
Definition write_file (filename : string) (rows : list (list string)) (w : World) : World :=
  {| files := <[filename := rows]> (files w); stdout := stdout w;
     writable := writable w |}.

(** How a run of [save_to_csv] ends. *)
Inductive completion : Type :=
  | Returned
  | RaisedValueError
  | RaisedOSError.

(** [str(v)], applied by the [csv] writer to every cell that is not text. *)
Definition str_value (v : value) : string :=
  match v with
  | VStr s => s
  | VInt z => pretty z
  | VBool true => "True"
  | VBool false => "False"
  end.

(** [DictWriter]'s default [restval]. *)
Definition restval : string := EmptyString.

(** [DictWriter._dict_to_list] with the default [extrasaction='raise']:
    a key outside [fieldnames] is a [ValueError] ([None] here), a field the
    row lacks is rendered as [restval]. *)
Definition dict_to_list (fieldnames : list string) (rowdict : record) : option (list string) :=
  if decide (dom rowdict ∖ list_to_set fieldnames = (∅ : gset string))
  then Some (map (λ key, from_option str_value restval (rowdict !! key)) fieldnames)
  else None.

(** [DictWriter.writerows]: rows are converted and written one by one, so a
    failing row leaves the earlier ones in the file. *)
Fixpoint writerows (fieldnames : list string) (rowdicts : list record)
    (written : list (list string)) : list (list string) * completion :=
  match rowdicts with
  | [] => (written, Returned)
  | rowdict :: rest =>
      match dict_to_list fieldnames rowdict with
      | Some cells => writerows fieldnames rest (written ++ [cells])
      | None => (written, RaisedValueError)
      end
  end.

(** Lines 95-97: the union of the key sets of all rows. *)
Definition collect_fieldnames (results : list record) : gset string :=
  foldl (λ fieldnames result, fieldnames ∪ dom result) ∅ results.

(** The order [sorted] uses on [str]: lexicographic on code points, which on
    UTF-8 text is the lexicographic order on bytes. *)
Definition str_le (a b : string) : Prop := String.leb a b = true.

#[global] Instance str_le_dec (a b : string) : Decision (str_le a b).
Proof. unfold str_le. solve_decision. Defined.

(** Line 99: [sorted(list(fieldnames))]. *)
Definition sorted_fieldnames (results : list record) : list string :=
  merge_sort str_le (elements (collect_fieldnames results)).

Definition save_to_csv (results : list record) (filename : string) (w : World)
    : World * completion :=
  match results with
  | [] => (print "No results found." w, Returned)
  | _ :: _ =>
      let fieldnames := sorted_fieldnames results in
      if writable w filename then
        (* writeheader, then writerows *)
        let '(rows, outcome) := writerows fieldnames results [fieldnames] in
        let w := write_file filename rows w in
        match outcome with
        | Returned => (print ("Results saved to " +:+ filename) w, Returned)
        | other => (w, other)
        end
      else
        (* open raises: nothing is written, nothing is printed *)
        (w, RaisedOSError)
  end.

(** ** Row kinds and the fixed schema *)

Definition is_post_record (r : record) : Prop :=
  r !! "content_type" = Some (VStr "submission").

Definition is_comment_record (r : record) : Prop :=
  r !! "content_type" = Some (VStr "comment").

#[global] Instance is_post_record_dec (r : record) : Decision (is_post_record r).
Proof. unfold is_post_record. apply _. Defined.

#[global] Instance is_comment_record_dec (r : record) : Decision (is_comment_record r).
Proof. unfold is_comment_record. apply _. Defined.

(** The eleven field names, in the order [sorted] puts them. *)
Definition sorted_record_fields : list string :=
  ["author"; "content"; "content_type"; "created_utc"; "is_self_post";
   "keyword"; "post_id"; "score"; "subreddit"; "title"; "url"].

Definition record_fields : gset string := list_to_set sorted_record_fields.

(** ** Sample data

    A client with canned answers, used to run the definitions. *)

Definition ascii_builtins : Builtins := {|
  str_lower := ascii_str_lower;
  fromtimestamp_strftime := λ t, pretty t
|}.

Definition comment_hit : Comment.t := {|
  Comment.author := Some "alice";
  Comment.score := 3;
  Comment.id := "c1";
  Comment.created_utc := 1700000100;
  Comment.body := "I really like RUST."
|}.

Definition comment_miss : Comment.t := {|
  Comment.author := Some "carol";
  Comment.score := 1;
  Comment.id := "c2";
  Comment.created_utc := 1700000200;
  Comment.body := "Nothing to see here."
|}.

Definition comment_orphan : Comment.t := {|
  Comment.author := None;
  Comment.score := -2;
  Comment.id := "c3";
  Comment.created_utc := 1700000300;
  Comment.body := "rust never sleeps"
|}.

(** A link post by a deleted account, with comments. *)
Definition link_post : Submission.t := {|
  Submission.title := "Rust 2.0 announced";
  Submission.author := None;
  Submission.subreddit_display_name := "programming";
  Submission.score := 42;
  Submission.permalink := "/r/programming/comments/p1/rust_20/";
  Submission.created_utc := 1700000000;
  Submission.id := "p1";
  Submission.is_self := false;
  Submission.selftext := EmptyString;
  Submission.comments := [comment_hit; comment_miss; comment_orphan]
|}.

(** A text post with a body. *)
Definition text_post : Submission.t := {|
  Submission.title := "Why I moved to Rust";
  Submission.author := Some "bob";
  Submission.subreddit_display_name := "rust";
  Submission.score := 7;
  Submission.permalink := "/r/rust/comments/p2/why/";
  Submission.created_utc := 1700000500;
  Submission.id := "p2";
  Submission.is_self := true;
  Submission.selftext := "Long story short: the borrow checker.";
  Submission.comments := []
|}.

(** A text post whose body was left empty. *)
Definition title_only_post : Submission.t := {|
  Submission.title := "Anyone using Rust at work?";
  Submission.author := Some "dave";
  Submission.subreddit_display_name := "rust";
  Submission.score := 0;
  Submission.permalink := "/r/rust/comments/p3/anyone/";
  Submission.created_utc := 1700000900;
  Submission.id := "p3";
  Submission.is_self := true;
  Submission.selftext := EmptyString;
  Submission.comments := []
|}.

(** Answers every search with the first [limit] of three posts. *)
Definition sample_reddit : Reddit := {|
  subreddit_search := λ _ _ _ _ limit,
    take (Z.to_nat limit) [link_post; text_post; title_only_post]
|}.

(** No file yet, nothing printed; a path opens when it is not empty and
    names no directory. *)
Definition empty_world : World := {|
  files := ∅;
  stdout := [];
  writable := λ path, str_truthy path && negb (str_in "/" path)
|}.

(** The run used in the examples: two keywords, two posts each. *)
Definition sample_output : list record :=
  @search_reddit ascii_builtins sample_reddit ["Rust"; "go"] None 2 "week".

(** Two rows with different key sets, and the same rows the other way round. *)
Definition sample_rows : list record :=
  [py_dict [("score", VInt 5); ("title", VStr "b")];
   py_dict [("author", VStr "alice"); ("title", VStr "a")]].

Definition sample_rows_swapped : list record :=
  [py_dict [("author", VStr "alice"); ("title", VStr "a")];
   py_dict [("score", VInt 5); ("title", VStr "b")]].

(** ** main *)

(** What [praw.Reddit] hands out.  The client makes its requests lazily,
    while [search_reddit] iterates: a listing may raise before it is
    exhausted ([None]; the rows built from what it had yielded are lost with
    the exception), and fetching the comments of a submission may raise. *)
Record Client : Type := {
  client_search : string → string → string → string → Z → option (list Submission.t);
  comments_raise : Submission.t → bool
}.

(** What a client answers, for the runs in which no request raises. *)
Definition answers (client : Client) : Reddit := {|
  subreddit_search := λ name query sort time_filter limit,
    default [] (client_search client name query sort time_filter limit)
|}.

(** What [main] takes from outside the script besides [Builtins]:
    [str.strip] (Unicode white space), the constructor [praw.Reddit], which
    gives a client or raises ([None]), and the time stamps on which
    [datetime.fromtimestamp] raises (out of the platform's range). *)
Class Externals : Type := {
  str_strip : string → string;
  praw_Reddit : option string → option string → string → option Client;
  fromtimestamp_raises : Z → bool
}.

(** A [for] loop whose body may raise: the first exception ends the loop and
    the state built so far is lost. *)
Fixpoint for_each {S A : Type} (body : S → A → option S) (state : S) (items : list A)
    : option S :=
  match items with
  | [] => Some state
  | item :: rest =>
      match body state item with
      | Some state => for_each body state rest
      | None => None
      end
  end.

(** Truth value of an attribute holding a string or [None]. *)
Definition opt_truthy (o : option string) : bool :=
  match o with None => false | Some s => str_truthy s end.

(** [s.split(sep)] for a one-character separator. *)
Fixpoint str_split (sep : ascii) (s : string) : list string :=
  match s with
  | EmptyString => [EmptyString]
  | String c rest =>
      if Ascii.eqb c sep then EmptyString :: str_split sep rest
      else match str_split sep rest with
           | piece :: pieces => String c piece :: pieces
           | [] => [String c EmptyString]
           end
  end.

(** The parsed command line. *)
Module Args.
Record t : Type := {
  keywords : string;
  subreddit : option string;
  limit : Z;
  time : string;
  output : string
}.
End Args.

(** How a run of [main] ends. *)
Inductive main_completion : Type :=
  | MainReturned
  | MainRaised.

Section main.
Context `{Builtins} `{Externals}.

(** Lines 8-16, on the process environment as [load_dotenv] leaves it. *)
Definition setup_reddit_client (environ : gmap string string) : option Client :=
  praw_Reddit (environ !! "REDDIT_CLIENT_ID")
              (environ !! "REDDIT_CLIENT_SECRET")
              (default "KeywordScraper v1.0 by /u/YourUsername"
                       (environ !! "REDDIT_USER_AGENT")).

(** Line 121. *)
Definition parse_keywords (keywords : string) : list string :=
  str_strip <$> str_split "," keywords.

(** Lines 124-127. *)
Definition scope_line (subreddit : option string) : string :=
  match subreddit with
  | Some name =>
      if str_truthy name then "In subreddit: r/" +:+ name else "Across all of Reddit"
  | None => "Across all of Reddit"
  end.

(** *** search_reddit, with the exceptions it lets through

    The same three loops as [search_reddit], on a client whose requests may
    raise: [None] is an exception leaving [search_reddit], whichever line it
    comes from. *)

(** Lines 70-84; line 78 raises on a time stamp out of range. *)
Definition comment_step_checked (keyword : string) (submission : Submission.t)
    (results : list record) (comment : Comment.t) : option (list record) :=
  if str_in (str_lower keyword) (str_lower (Comment.body comment))
  then
    if fromtimestamp_raises (Comment.created_utc comment) then None
    else Some (results ++ [comment_data keyword submission comment])
  else Some results.

(** Lines 44-84; line 53 raises on a time stamp out of range, line 68 when
    the comments cannot be fetched. *)
Definition submission_step_checked (client : Client) (keyword : string)
    (results : list record) (submission : Submission.t) : option (list record) :=
  if fromtimestamp_raises (Submission.created_utc submission) then None
  else
    let results := results ++ [post_data keyword submission] in
    if comments_raise client submission then None
    else for_each (comment_step_checked keyword submission) results
           (Submission.comments submission).

(** Lines 35-41, and the listing drained by the loop of line 44. *)
Definition submissions_for_checked (client : Client) (subreddit : option string)
    (limit : Z) (time_filter : string) (keyword : string)
    : option (list Submission.t) :=
  let query := dquote +:+ keyword +:+ dquote in
  match subreddit with
  | Some name =>
      if str_truthy name
      then client_search client name query "new" time_filter limit
      else client_search client "all" query "new" time_filter limit
  | None => client_search client "all" query "new" time_filter limit
  end.

(** Lines 34-84. *)
Definition keyword_step_checked (client : Client) (subreddit : option string)
    (limit : Z) (time_filter : string) (results : list record)
    (keyword : string) : option (list record) :=
  match submissions_for_checked client subreddit limit time_filter keyword with
  | Some submissions =>
      for_each (submission_step_checked client keyword) results submissions
  | None => None
  end.

Definition search_reddit_checked (client : Client) (keywords : list string)
    (subreddit : option string) (limit : Z) (time_filter : string)
    : option (list record) :=
  for_each (keyword_step_checked client subreddit limit time_filter) [] keywords.

(** Lines 118-134.  An exception of the constructor, of [search_reddit] or
    of [save_to_csv] is not caught: it ends the run where it occurs. *)
Definition main (args : Args.t) (environ : gmap string string) (w : World)
    : World * main_completion :=
  let keywords := parse_keywords (Args.keywords args) in
  let w := print ("Searching Reddit for: " +:+ String.concat ", " keywords) w in
  let w := print (scope_line (Args.subreddit args)) w in
  match setup_reddit_client environ with
  | None => (w, MainRaised)
  | Some reddit =>
      match search_reddit_checked reddit keywords (Args.subreddit args)
              (Args.limit args) (Args.time args) with
      | None => (w, MainRaised)
      | Some results =>
          let w := print ("Found " +:+ pretty (length results) +:+ " mentions") w in
          match save_to_csv results (Args.output args) w with
          | (w, Returned) => (w, MainReturned)
          | (w, _) => (w, MainRaised)
          end
      end
  end.

End main.

(** The community the searches of a run go to. *)
Definition search_scope (subreddit : option string) : string :=
  match subreddit with
  | Some name => if str_truthy name then name else "all"
  | None => "all"
  end.

(** ** Statements about the client and the output *)

(** A PRAW listing stops once [limit] items have been yielded, so at most
    [max(limit, 0)] come out of a search. *)
Definition respects_limit (reddit : Reddit) : Prop :=
  ∀ name query sort time_filter limit,
    Z.of_nat (length (subreddit_search reddit name query sort time_filter limit))
      ≤ Z.max 0 limit.

(** The rows carrying one keyword form one stretch: a row between two rows
    with the same keyword field has that keyword field too. *)
Definition keyword_contiguous (rows : list record) : Prop :=
  ∀ (i j k : nat) (ri rj rk : record),
    (i < j)%nat → (j < k)%nat →
    rows !! i = Some ri → rows !! j = Some rj → rows !! k = Some rk →
    ri !! "keyword" = rk !! "keyword" →
    rj !! "keyword" = ri !! "keyword".

(** ** More sample data *)

Definition ascii_isspace (c : ascii) : bool :=
  let n := N_of_ascii c in
  ((9 <=? n) && (n <=? 13) || (28 <=? n) && (n <=? 32))%N.

Fixpoint ascii_lstrip (s : string) : string :=
  match s with
  | EmptyString => EmptyString
  | String c rest => if ascii_isspace c then ascii_lstrip rest else s
  end.

Definition ascii_str_strip (s : string) : string :=
  String.rev (ascii_lstrip (String.rev (ascii_lstrip s))).

(** A client that answers like [sample_reddit] and never raises. *)
Definition sample_client : Client := {|
  client_search := λ name query sort time_filter limit,
    Some (subreddit_search sample_reddit name query sort time_filter limit);
  comments_raise := λ _, false
|}.


(** Time stamps before 1970 or after the year 9999 are out of range. *)
Definition sample_fromtimestamp_raises (t : Z) : bool :=
  (t <? 0) || (253402300800 <=? t).

(** A constructor that wants both credentials. *)
Definition sample_externals : Externals := {|
  str_strip := ascii_str_strip;
  praw_Reddit := λ client_id client_secret _,
    match client_id, client_secret with
    | Some _, Some _ => Some sample_client
    | _, _ => None
    end;
  fromtimestamp_raises := sample_fromtimestamp_raises
|}.

Definition sample_environ : gmap string string :=
  <["REDDIT_CLIENT_ID" := "id"]> (<["REDDIT_CLIENT_SECRET" := "secret"]> ∅).

Definition sample_args : Args.t := {|
  Args.keywords := "Rust, go";
  Args.subreddit := None;
  Args.limit := 2;
  Args.time := "week";
  Args.output := "out.csv"
|}.

(** A client that never finds anything. *)
Definition silent_reddit : Client := {|
  client_search := λ _ _ _ _ _, Some [];
  comments_raise := λ _, false
|}.

(** A client that answers like [sample_reddit] when asked for the newest
    matches and finds nothing under any other sort order. *)
Definition newest_only_reddit : Reddit := {|
  subreddit_search := λ name query sort time_filter limit,
    if String.eqb sort "new"
    then subreddit_search sample_reddit name query sort time_filter limit
    else []
|}.

(** A constructor that always hands out [silent_reddit]. *)
Definition silent_externals : Externals := {|
  str_strip := ascii_str_strip;
  praw_Reddit := λ _ _ _, Some silent_reddit;
  fromtimestamp_raises := sample_fromtimestamp_raises
|}.


(** A world with a file of notes, and one with an older output file. *)
Definition notes_world : World := {|
  files := <["notes.txt" := [["kept"]]]> ∅;
  stdout := [];
  writable := writable empty_world
|}.

Definition stale_world : World := {|
  files := <["out.csv" := [["old"]]]> ∅;
  stdout := [];
  writable := writable empty_world
|}.


(** * Properties *)

(** ** The order used by [sorted] *)

Lemma ascii_compare_refl (c : ascii) : Ascii.compare c c = Eq.
Proof. unfold Ascii.compare. apply N.compare_refl. Qed.

Lemma string_compare_refl (s : string) : String.compare s s = Eq.
Proof. induction s as [|c s IH]; simpl; [done|]. by rewrite ascii_compare_refl. Qed.

Lemma ascii_compare_trans (a b c : ascii) (o : comparison) :
  Ascii.compare a b = o → Ascii.compare b c = o → Ascii.compare a c = o.
Proof.
  unfold Ascii.compare. destruct o; intros Hab Hbc.
  - apply N.compare_eq_iff in Hab, Hbc. rewrite Hab, Hbc. apply N.compare_refl.
  - rewrite N.compare_lt_iff in *. lia.
  - rewrite N.compare_gt_iff in *. lia.
Qed.

Lemma string_compare_lt_trans (a b c : string) :
  String.compare a b = Lt → String.compare b c = Lt → String.compare a c = Lt.
Proof.
  revert b c. induction a as [|x a IH]; intros [|y b] [|z c]; simpl; try done.
  destruct (Ascii.compare x y) eqn:Hxy, (Ascii.compare y z) eqn:Hyz; try done.
  - apply Ascii.compare_eq_iff in Hxy, Hyz. subst.
    rewrite ascii_compare_refl. apply IH.
  - apply Ascii.compare_eq_iff in Hxy. subst. by rewrite Hyz.
  - apply Ascii.compare_eq_iff in Hyz. subst. by rewrite Hxy.
  - by rewrite (ascii_compare_trans x y z Lt).
Qed.

#[global] Instance str_le_refl : Reflexive str_le.
Proof. intros s. unfold str_le, String.leb. by rewrite string_compare_refl. Qed.

#[global] Instance str_le_trans : Transitive str_le.
Proof.
  intros a b c. unfold str_le, String.leb.
  destruct (String.compare a b) eqn:Hab; [| |done].
  - apply String.compare_eq_iff in Hab. by subst.
  - destruct (String.compare b c) eqn:Hbc; [| |done].
    + apply String.compare_eq_iff in Hbc. subst. by rewrite Hab.
    + by rewrite (string_compare_lt_trans a b c).
Qed.

#[global] Instance str_le_total : Total str_le.
Proof. intros a b. apply String.leb_total. Qed.

#[global] Instance str_le_antisymm : AntiSymm (=) str_le.
Proof. intros a b. apply String.leb_antisym. Qed.

(** Whatever algorithm [sorted] runs, a duplicate-free list has one sorted
    arrangement. *)
Lemma sorted_arrangement_unique (l1 l2 : list string) :
  l1 ≡ₚ l2 → Sorted str_le l1 → Sorted str_le l2 → l1 = l2.
Proof. intros Hp H1 H2. by apply (Sorted_unique str_le). Qed.

(** ** Substring test *)

Lemma append_cons (c : ascii) (s t : string) : String c s +:+ t = String c (s +:+ t).
Proof. reflexivity. Qed.

Lemma append_nil_l (s : string) : EmptyString +:+ s = s.
Proof. reflexivity. Qed.

Lemma string_prefix_spec (p s : string) :
  String.prefix p s = true ↔ ∃ post, s = p +:+ post.
Proof.
  revert s. induction p as [|c p IH]; intros [|d s]; simpl.
  - split; [intros _; by exists EmptyString | done].
  - split; [intros _; by exists (String d s) | done].
  - split; [done | by intros [? ?]].
  - setoid_rewrite append_cons.
    destruct (Ascii.ascii_dec c d) as [->|Hne].
    + rewrite IH. split; intros [post Hs]; exists post; congruence.
    + split; [done | intros [post Hs]; congruence].
Qed.

Lemma str_in_nil (needle : string) :
  str_in needle EmptyString = String.prefix needle EmptyString || false.
Proof. reflexivity. Qed.

Lemma str_in_cons (needle : string) (c : ascii) (hay : string) :
  str_in needle (String c hay) = String.prefix needle (String c hay) || str_in needle hay.
Proof. reflexivity. Qed.

(** [str_in needle hay] holds exactly when [hay] is some text, then
    [needle], then some text. *)
Lemma str_in_spec (needle hay : string) :
  str_in needle hay = true ↔ ∃ pre post, hay = pre +:+ needle +:+ post.
Proof.
  induction hay as [|c hay IH];
    [rewrite str_in_nil | rewrite str_in_cons];
    rewrite orb_true_iff, string_prefix_spec.
  - split.
    + intros [[post Hp]|?]; [|done]. by exists EmptyString, post.
    + intros ([|??] & post & Hp); [left; by exists post | done].
  - rewrite IH. split.
    + intros [[post Hp]|(pre & post & Hp)].
      * by exists EmptyString, post.
      * exists (String c pre), post. rewrite append_cons. by rewrite Hp.
    + intros ([|d pre] & post & Hp).
      * left. by exists post.
      * right. exists pre, post. rewrite append_cons in Hp. congruence.
Qed.

(** ** The loops of [search_reddit] *)

(** A loop whose body only appends to the accumulator. *)
Lemma foldl_appending {A B : Type} (step : list B → A → list B) (rows : A → list B) :
  (∀ acc x, step acc x = acc ++ rows x) →
  ∀ xs acc, foldl step acc xs = acc ++ (xs ≫= rows).
Proof.
  intros Hstep xs. induction xs as [|x xs IH]; intros acc; simpl.
  - by rewrite app_nil_r.
  - by rewrite IH, Hstep, <-app_assoc.
Qed.

Section pipeline_facts.
Context `{Builtins}.

Lemma comment_loop (keyword : string) (submission : Submission.t)
    (comments : list Comment.t) (results : list record) :
  foldl (comment_step keyword submission) results comments
  = results ++ (comment_data keyword submission <$>
      filter (λ comment, str_in (str_lower keyword) (str_lower (Comment.body comment)))
             comments).
Proof.
  revert results. induction comments as [|c cs IH]; intros results; simpl.
  - by rewrite app_nil_r.
  - rewrite IH. unfold comment_step. rewrite filter_cons.
    destruct (str_in _ _) eqn:Hin; simpl.
    + by rewrite <-app_assoc.
    + done.
Qed.

Lemma submission_step_block (keyword : string) (results : list record)
    (submission : Submission.t) :
  submission_step keyword results submission
  = results ++ submission_block keyword submission.
Proof.
  unfold submission_step, submission_block, comment_rows.
  by rewrite comment_loop, <-app_assoc.
Qed.

Lemma keyword_step_block (reddit : Reddit) (subreddit : option string) (limit : Z)
    (time_filter : string) (results : list record) (keyword : string) :
  keyword_step reddit subreddit limit time_filter results keyword
  = results ++ keyword_block reddit subreddit limit time_filter keyword.
Proof.
  unfold keyword_step, keyword_block.
  apply foldl_appending. intros. apply submission_step_block.
Qed.

Lemma search_reddit_blocks (reddit : Reddit) (keywords : list string)
    (subreddit : option string) (limit : Z) (time_filter : string) :
  search_reddit reddit keywords subreddit limit time_filter
  = keywords ≫= keyword_block reddit subreddit limit time_filter.
Proof.
  unfold search_reddit.
  rewrite (foldl_appending _ (keyword_block reddit subreddit limit time_filter)); [done|].
  intros. apply keyword_step_block.
Qed.

(** Where a row of the output comes from. *)
Lemma elem_of_search_reddit (reddit : Reddit) (keywords : list string)
    (subreddit : option string) (limit : Z) (time_filter : string) (r : record) :
  r ∈ search_reddit reddit keywords subreddit limit time_filter ↔
  ∃ keyword submission,
    keyword ∈ keywords ∧
    submission ∈ submissions_for reddit subreddit limit time_filter keyword ∧
    (r = post_data keyword submission ∨
     ∃ comment, comment ∈ Submission.comments submission ∧
       str_in (str_lower keyword) (str_lower (Comment.body comment)) = true ∧
       r = comment_data keyword submission comment).
Proof.
  rewrite search_reddit_blocks, list_elem_of_bind. split.
  - intros (keyword & Hr & Hk). unfold keyword_block in Hr.
    apply list_elem_of_bind in Hr as (submission & Hr & Hs).
    exists keyword, submission. split_and!; [done..|].
    unfold submission_block, comment_rows in Hr.
    apply elem_of_cons in Hr as [->|Hr]; [by left|right].
    apply list_elem_of_fmap in Hr as (comment & -> & Hc).
    apply list_elem_of_filter in Hc as [Hin Hc].
    exists comment. split_and!; [done| |done]. by apply Is_true_true.
  - intros (keyword & submission & Hk & Hs & Hr).
    exists keyword. split; [|done]. unfold keyword_block.
    apply list_elem_of_bind. exists submission. split; [|done].
    unfold submission_block, comment_rows.
    destruct Hr as [->|(comment & Hc & Hin & ->)]; [by left|right].
    apply list_elem_of_fmap. exists comment. split; [done|].
    apply list_elem_of_filter. split; [|done]. by apply Is_true_true.
Qed.

(** The fields of the two kinds of row. *)
Lemma post_data_lookup (keyword : string) (submission : Submission.t) :
  post_data keyword submission !! "keyword" = Some (VStr keyword) ∧
  post_data keyword submission !! "title" = Some (VStr (Submission.title submission)) ∧
  post_data keyword submission !! "author"
    = Some (VStr (str_author (Submission.author submission))) ∧
  post_data keyword submission !! "post_id" = Some (VStr (Submission.id submission)) ∧
  post_data keyword submission !! "is_self_post"
    = Some (VBool (Submission.is_self submission)) ∧
  post_data keyword submission !! "content_type" = Some (VStr "submission").
Proof.
  unfold post_data.
  destruct (Submission.is_self submission && str_truthy (Submission.selftext submission));
    by vm_compute.
Qed.

Lemma comment_data_lookup (keyword : string) (submission : Submission.t)
    (comment : Comment.t) :
  comment_data keyword submission comment !! "keyword" = Some (VStr keyword) ∧
  comment_data keyword submission comment !! "title"
    = Some (VStr (Submission.title submission)) ∧
  comment_data keyword submission comment !! "post_id" = Some (VStr (Comment.id comment)) ∧
  comment_data keyword submission comment !! "is_self_post" = Some (VBool true) ∧
  comment_data keyword submission comment !! "content" = Some (VStr (Comment.body comment)) ∧
  comment_data keyword submission comment !! "content_type" = Some (VStr "comment").
Proof. by vm_compute. Qed.

Lemma post_data_dom (keyword : string) (submission : Submission.t) :
  dom (post_data keyword submission) = record_fields.
Proof.
  unfold post_data, py_dict.
  destruct (Submission.is_self submission && str_truthy (Submission.selftext submission));
    cbn [foldl fst snd]; rewrite !dom_insert_L, dom_empty_L; reflexivity.
Qed.

Lemma comment_data_dom (keyword : string) (submission : Submission.t)
    (comment : Comment.t) :
  dom (comment_data keyword submission comment) = record_fields.
Proof.
  unfold comment_data, py_dict. cbn [foldl fst snd].
  rewrite !dom_insert_L, dom_empty_L. reflexivity.
Qed.

End pipeline_facts.

(** ** The writer *)

Lemma collect_fieldnames_from (results : list record) (seen : gset string) (key : string) :
  key ∈ foldl (λ fieldnames result, fieldnames ∪ dom result) seen results ↔
  key ∈ seen ∨ ∃ r, r ∈ results ∧ key ∈ dom r.
Proof.
  revert seen. induction results as [|r results IH]; intros seen; simpl.
  - split; [by left | intros [?|(r & Hr & _)]; [done | by apply elem_of_nil in Hr]].
  - rewrite IH, elem_of_union. split.
    + intros [[?|?]|(r' & Hr' & ?)]; [by left|right..].
      * exists r. split; [left | done].
      * exists r'. split; [by right | done].
    + intros [?|(r' & Hr' & ?)]; [by left; left|].
      apply elem_of_cons in Hr' as [->|Hr']; [by left; right|].
      right. by exists r'.
Qed.

Lemma elem_of_collect_fieldnames (results : list record) (key : string) :
  key ∈ collect_fieldnames results ↔ ∃ r, r ∈ results ∧ key ∈ dom r.
Proof.
  unfold collect_fieldnames. rewrite collect_fieldnames_from.
  split; [intros [?|?]; [set_solver | done] | by right].
Qed.

Lemma collect_fieldnames_perm (results results' : list record) :
  results ≡ₚ results' → collect_fieldnames results = collect_fieldnames results'.
Proof.
  intros Hp. apply set_eq. intros key. rewrite !elem_of_collect_fieldnames.
  by setoid_rewrite Hp.
Qed.

Lemma sorted_fieldnames_sorted (results : list record) :
  Sorted str_le (sorted_fieldnames results).
Proof. apply (Sorted_merge_sort str_le). Qed.

Lemma sorted_fieldnames_NoDup (results : list record) :
  NoDup (sorted_fieldnames results).
Proof.
  unfold sorted_fieldnames. rewrite merge_sort_Permutation. apply NoDup_elements.
Qed.

Lemma elem_of_sorted_fieldnames (results : list record) (key : string) :
  key ∈ sorted_fieldnames results ↔ ∃ r, r ∈ results ∧ is_Some (r !! key).
Proof.
  unfold sorted_fieldnames.
  rewrite merge_sort_Permutation, elem_of_elements, elem_of_collect_fieldnames.
  by setoid_rewrite elem_of_dom.
Qed.

(** [sorted] returns the one sorted arrangement of the set, however the set
    happens to be enumerated. *)
Lemma sorted_fieldnames_of_set (results : list record) (names : list string) :
  NoDup names → Sorted str_le names →
  collect_fieldnames results = list_to_set names →
  sorted_fieldnames results = names.
Proof.
  intros Hnd Hsorted Hset. apply sorted_arrangement_unique.
  - unfold sorted_fieldnames. rewrite merge_sort_Permutation, Hset.
    by apply elements_list_to_set.
  - apply sorted_fieldnames_sorted.
  - done.
Qed.

Lemma dict_to_list_covered (fieldnames : list string) (rowdict : record) :
  (∀ key, is_Some (rowdict !! key) → key ∈ fieldnames) →
  dict_to_list fieldnames rowdict
  = Some (map (λ key, from_option str_value restval (rowdict !! key)) fieldnames).
Proof.
  intros Hcov. unfold dict_to_list. rewrite decide_True; [done|].
  apply set_eq. intros key.
  rewrite elem_of_difference, elem_of_dom, elem_of_list_to_set. split.
  - intros [Hkey Hout]. destruct Hout. by apply Hcov.
  - intros Hkey. by apply not_elem_of_empty in Hkey.
Qed.

Lemma writerows_covered (fieldnames : list string) (rowdicts : list record)
    (written : list (list string)) :
  (∀ r key, r ∈ rowdicts → is_Some (r !! key) → key ∈ fieldnames) →
  writerows fieldnames rowdicts written
  = (written ++ map (λ r, map (λ key, from_option str_value restval (r !! key)) fieldnames)
                    rowdicts,
     Returned).
Proof.
  revert written. induction rowdicts as [|r rowdicts IH]; intros written Hcov; simpl.
  - by rewrite app_nil_r.
  - rewrite dict_to_list_covered by (intros; eapply Hcov; [left | done]).
    rewrite IH by (intros; eapply Hcov; [by right | done]).
    by rewrite <-app_assoc.
Qed.

(** The rows [save_to_csv] hands to the file for a non-empty [results]. *)
Lemma save_to_csv_rows (results : list record) (filename : string) (w : World) :
  results ≠ [] →
  writable w filename = true →
  save_to_csv results filename w
  = (print ("Results saved to " +:+ filename)
       (write_file filename
          (sorted_fieldnames results ::
             map (λ r, map (λ key, from_option str_value restval (r !! key))
                           (sorted_fieldnames results)) results) w),
     Returned).
Proof.
  intros Hne Hopens. destruct results as [|r0 results]; [done|].
  unfold save_to_csv. rewrite Hopens.
  rewrite writerows_covered; [done|].
  intros r key Hr Hkey. apply elem_of_sorted_fieldnames. by exists r.
Qed.

(** ** Counting post rows *)

Section counting.
Context `{Builtins}.

Lemma post_data_is_post (keyword : string) (submission : Submission.t) :
  is_post_record (post_data keyword submission).
Proof. apply post_data_lookup. Qed.

Lemma comment_data_is_comment (keyword : string) (submission : Submission.t)
    (comment : Comment.t) :
  is_comment_record (comment_data keyword submission comment).
Proof. apply comment_data_lookup. Qed.

Lemma comment_not_post (r : record) : is_comment_record r → ¬ is_post_record r.
Proof. unfold is_comment_record, is_post_record. congruence. Qed.

Lemma submission_block_posts (keyword : string) (submission : Submission.t) :
  filter is_post_record (submission_block keyword submission)
  = [post_data keyword submission].
Proof.
  unfold submission_block.
  rewrite filter_cons_True by apply post_data_is_post. f_equal.
  unfold comment_rows.
  induction (filter _ (Submission.comments submission)) as [|c cs IH]; [done|].
  rewrite fmap_cons, filter_cons_False; [done|].
  apply comment_not_post, comment_data_is_comment.
Qed.

Lemma keyword_block_posts (reddit : Reddit) (subreddit : option string) (limit : Z)
    (time_filter : string) (keyword : string) :
  length (filter is_post_record (keyword_block reddit subreddit limit time_filter keyword))
  = length (submissions_for reddit subreddit limit time_filter keyword).
Proof.
  unfold keyword_block.
  induction (submissions_for reddit subreddit limit time_filter keyword) as [|s ss IH];
    [done|].
  rewrite bind_cons, filter_app, length_app, submission_block_posts, IH. done.
Qed.

(** The post rows of the output are as many as the submissions the searches
    returned. *)
Lemma post_record_count (reddit : Reddit) (keywords : list string)
    (subreddit : option string) (limit : Z) (time_filter : string) :
  length (filter is_post_record (search_reddit reddit keywords subreddit limit time_filter))
  = sum_list ((λ keyword,
      length (submissions_for reddit subreddit limit time_filter keyword)) <$> keywords).
Proof.
  rewrite search_reddit_blocks.
  induction keywords as [|k ks IH]; [done|].
  rewrite bind_cons, filter_app, length_app, keyword_block_posts, IH. done.
Qed.

End counting.

(** ** The search-and-flatten pipeline *)

Section pipeline_claims.
Context `{Builtins}.

(** C1. Every row of the output tagged as a comment carries a keyword and a
    content such that the lower-cased content is some text, the lower-cased
    keyword, and some text again (the test of line 70 succeeded on them); and
    a turn of the comment loop on a comment whose lower-cased body does not
    contain the lower-cased keyword leaves [results] as it was. *)
Theorem comment_record_contains_keyword (reddit : Reddit) (keywords : list string)
    (subreddit : option string) (limit : Z) (time_filter : string) (r : record) :
  r ∈ search_reddit reddit keywords subreddit limit time_filter →
  is_comment_record r →
  (∃ keyword body pre post,
     r !! "keyword" = Some (VStr keyword) ∧
     r !! "content" = Some (VStr body) ∧
     str_in (str_lower keyword) (str_lower body) = true ∧
     str_lower body = pre +:+ str_lower keyword +:+ post) ∧
  (∀ keyword submission results comment,
     str_in (str_lower keyword) (str_lower (Comment.body comment)) = false →
     comment_step keyword submission results comment = results).
Proof.
  intros Hr Hcomment. split.
  - apply elem_of_search_reddit in Hr
      as (keyword & submission & _ & _ & [->|(comment & _ & Hin & ->)]).
    + destruct (comment_not_post _ Hcomment). apply post_data_is_post.
    + destruct (proj1 (str_in_spec _ _) Hin) as (pre & post & Hsplit).
      exists keyword, (Comment.body comment), pre, post.
      split_and!; [apply comment_data_lookup..|done|done].
  - intros keyword submission results comment Hmiss.
    unfold comment_step. by rewrite Hmiss.
Qed.

Lemma submissions_for_within_limit (reddit : Reddit) (subreddit : option string)
    (limit : Z) (time_filter : string) (keyword : string) :
  respects_limit reddit →
  Z.of_nat (length (submissions_for reddit subreddit limit time_filter keyword))
    ≤ Z.max 0 limit.
Proof.
  intros Hcontract. unfold submissions_for.
  destruct subreddit as [[|c name]|]; simpl; apply Hcontract.
Qed.

(** C2, as amended. On a client whose searches respect the limit they are
    given, and for a limit that is not negative, the rows tagged as
    submissions number at most [limit] times the number of keywords: every
    search is issued with the [limit] of the run, and each returned
    submission gives one such row. *)
Theorem post_records_bounded (reddit : Reddit) (keywords : list string)
    (subreddit : option string) (limit : Z) (time_filter : string) :
  respects_limit reddit →
  0 ≤ limit →
  Z.of_nat (length (filter is_post_record
                      (search_reddit reddit keywords subreddit limit time_filter)))
    ≤ limit * Z.of_nat (length keywords).
Proof.
  intros Hcontract Hlimit. rewrite post_record_count.
  induction keywords as [|k ks IH]; [simpl; lia|].
  rewrite fmap_cons, length_cons. change (sum_list (?n :: ?l)) with (n + sum_list l)%nat.
  rewrite Nat2Z.inj_add, Nat2Z.inj_succ.
  pose proof (submissions_for_within_limit reddit subreddit limit time_filter k Hcontract).
  lia.
Qed.

(** C3. What the code does for a post whose author is gone: the row is
    appended, and its author field is the text [None], which is not the
    placeholder the comment rows use. *)
Theorem post_author_of_deleted_account (reddit : Reddit) (keywords : list string)
    (subreddit : option string) (limit : Z) (time_filter : string)
    (keyword : string) (submission : Submission.t) :
  keyword ∈ keywords →
  submission ∈ submissions_for reddit subreddit limit time_filter keyword →
  Submission.author submission = None →
  post_data keyword submission
    ∈ search_reddit reddit keywords subreddit limit time_filter ∧
  post_data keyword submission !! "author" = Some (VStr "None") ∧
  post_data keyword submission !! "author" ≠ Some (VStr "[deleted]").
Proof.
  intros Hk Hs Hauthor. split.
  - apply elem_of_search_reddit. exists keyword, submission. by split_and!; [..|left].
  - destruct (post_data_lookup keyword submission) as (_ & _ & -> & _).
    by rewrite Hauthor.
Qed.

(** The comment rows do substitute the placeholder. *)
Lemma comment_author_of_deleted_account (keyword : string) (submission : Submission.t)
    (comment : Comment.t) :
  Comment.author comment = None →
  comment_data keyword submission comment !! "author" = Some (VStr "[deleted]").
Proof.
  intros Hauthor.
  assert (comment_data keyword submission comment !! "author"
          = Some (VStr (if obj_truthy (Comment.author comment)
                        then str_author (Comment.author comment)
                        else "[deleted]"))) as -> by by vm_compute.
  by rewrite Hauthor.
Qed.

(** C4, as amended. The content of a post row is the post's body when the
    post is a text post with a non-empty body, and the external-link marker
    otherwise, that is for a link post and for a text post with an empty
    body. *)
Theorem post_content (keyword : string) (submission : Submission.t) :
  (Submission.is_self submission = true →
   Submission.selftext submission ≠ EmptyString →
   post_data keyword submission !! "content"
     = Some (VStr (Submission.selftext submission))) ∧
  (Submission.is_self submission = false ∨
   Submission.selftext submission = EmptyString →
   post_data keyword submission !! "content" = Some (VStr "[External link]")).
Proof.
  unfold post_data. split.
  - intros -> Hbody.
    destruct (Submission.selftext submission); [done|]. simpl.
    apply lookup_insert_eq.
  - intros [-> | ->]; simpl.
    + apply lookup_insert_eq.
    + rewrite andb_false_r. apply lookup_insert_eq.
Qed.

(** C6. A comment of a returned submission that passes the keyword test has
    its row in the output; the [post_id] of that row is the comment's own id
    and its [content_type] is [comment]. *)
Theorem comment_record_id (reddit : Reddit) (keywords : list string)
    (subreddit : option string) (limit : Z) (time_filter : string)
    (keyword : string) (submission : Submission.t) (comment : Comment.t) :
  keyword ∈ keywords →
  submission ∈ submissions_for reddit subreddit limit time_filter keyword →
  comment ∈ Submission.comments submission →
  str_in (str_lower keyword) (str_lower (Comment.body comment)) = true →
  comment_data keyword submission comment
    ∈ search_reddit reddit keywords subreddit limit time_filter ∧
  comment_data keyword submission comment !! "post_id" = Some (VStr (Comment.id comment)) ∧
  comment_data keyword submission comment !! "content_type" = Some (VStr "comment").
Proof.
  intros Hk Hs Hc Hin. split_and!; [|apply comment_data_lookup..].
  apply elem_of_search_reddit. exists keyword, submission.
  split_and!; [done..|]. right. by exists comment.
Qed.

(** C9. A row of the output tagged as a comment has [is_self_post] set to
    [True]; it is the row of a comment of some returned submission, whose
    own [is_self] plays no part. *)
Theorem comment_record_is_self_post (reddit : Reddit) (keywords : list string)
    (subreddit : option string) (limit : Z) (time_filter : string) (r : record) :
  r ∈ search_reddit reddit keywords subreddit limit time_filter →
  is_comment_record r →
  r !! "is_self_post" = Some (VBool true) ∧
  ∃ keyword submission comment,
    submission ∈ submissions_for reddit subreddit limit time_filter keyword ∧
    comment ∈ Submission.comments submission ∧
    r = comment_data keyword submission comment ∧
    ∀ parent, comment_data keyword parent comment !! "is_self_post" = Some (VBool true).
Proof.
  intros Hr Hcomment.
  apply elem_of_search_reddit in Hr
    as (keyword & submission & _ & Hs & [->|(comment & Hc & _ & ->)]).
  - destruct (comment_not_post _ Hcomment). apply post_data_is_post.
  - split; [apply comment_data_lookup|].
    exists keyword, submission, comment. split_and!; [done..|].
    intros parent. apply comment_data_lookup.
Qed.

End pipeline_claims.

(** ** Keywords listed once *)

Section contiguity.
Context `{Builtins}.

Lemma keyword_block_keyword (reddit : Reddit) (subreddit : option string) (limit : Z)
    (time_filter : string) (keyword : string) (r : record) :
  r ∈ keyword_block reddit subreddit limit time_filter keyword →
  r !! "keyword" = Some (VStr keyword).
Proof.
  unfold keyword_block. intros Hr.
  apply list_elem_of_bind in Hr as (submission & Hr & _).
  unfold submission_block, comment_rows in Hr.
  apply elem_of_cons in Hr as [->|Hr]; [apply post_data_lookup|].
  apply list_elem_of_fmap in Hr as (comment & -> & _). apply comment_data_lookup.
Qed.

(** When no keyword is listed twice, the rows carrying a keyword are one
    uninterrupted stretch of the output: nothing before or after the block of
    that keyword carries it. *)
Lemma keyword_rows_contiguous (reddit : Reddit) (keywords : list string)
    (subreddit : option string) (limit : Z) (time_filter : string) (keyword : string) :
  NoDup keywords →
  keyword ∈ keywords →
  ∃ before after,
    search_reddit reddit keywords subreddit limit time_filter
      = before ++ keyword_block reddit subreddit limit time_filter keyword ++ after ∧
    Forall (λ r, r !! "keyword" ≠ Some (VStr keyword)) (before ++ after).
Proof.
  intros Hnd Hk.
  apply list_elem_of_split in Hk as (ks1 & ks2 & ->).
  apply NoDup_app in Hnd as (_ & Hfresh1 & Hnd2).
  apply NoDup_cons in Hnd2 as [Hfresh2 _].
  exists (ks1 ≫= keyword_block reddit subreddit limit time_filter),
         (ks2 ≫= keyword_block reddit subreddit limit time_filter).
  split.
  - by rewrite search_reddit_blocks, bind_app, bind_cons.
  - apply Forall_app. split; apply Forall_forall; intros r Hr;
      apply list_elem_of_bind in Hr as (other & Hr & Hother);
      rewrite (keyword_block_keyword _ _ _ _ _ _ Hr); intros [= ->].
    + apply (Hfresh1 keyword); [done | left].
    + done.
Qed.

End contiguity.

Section grouping.
Context `{Builtins}.

Lemma search_reddit_keyword_field (reddit : Reddit) (keywords : list string)
    (subreddit : option string) (limit : Z) (time_filter : string) (r : record) :
  r ∈ search_reddit reddit keywords subreddit limit time_filter →
  ∃ keyword, keyword ∈ keywords ∧ r !! "keyword" = Some (VStr keyword).
Proof.
  intros Hr. apply elem_of_search_reddit in Hr
    as (keyword & submission & Hk & _ & [->|(comment & _ & _ & ->)]);
    exists keyword; (split; [done|]);
    [apply post_data_lookup | apply comment_data_lookup].
Qed.

(** A row found at a position of [before ++ block ++ after] that carries a
    keyword no row of [before] or [after] carries sits in [block]. *)
Lemma lookup_in_block (before block after : list record) (keyword : string)
    (i : nat) (r : record) :
  Forall (λ r, r !! "keyword" ≠ Some (VStr keyword)) (before ++ after) →
  (before ++ block ++ after) !! i = Some r →
  r !! "keyword" = Some (VStr keyword) →
  (length before ≤ i)%nat ∧ (i < length before + length block)%nat.
Proof.
  intros Hout Hi Hr. apply Forall_app in Hout as [Hbefore Hafter].
  rewrite Forall_forall in Hbefore, Hafter.
  apply lookup_app_Some in Hi as [Hi|[Hle Hi]].
  { destruct (Hbefore r); [by eapply list_elem_of_lookup_2 | done]. }
  apply lookup_app_Some in Hi as [Hi|[Hle' Hi]].
  - apply lookup_lt_Some in Hi. lia.
  - destruct (Hafter r); [by eapply list_elem_of_lookup_2 | done].
Qed.

(** C5, as amended. The output is the rows of the entries of the keyword
    list, entry after entry in list order; the rows of an entry are, for
    each submission in the order the search returned them, the post row
    directly followed by the rows of that submission's matching comments,
    and each of these rows carries the keyword of the entry and a comment row
    the title of its post.  A keyword listed twice therefore has two
    separate stretches of rows; when no keyword is listed twice, the rows
    carrying a keyword form one stretch. *)
Theorem search_reddit_grouped (reddit : Reddit) (keywords : list string)
    (subreddit : option string) (limit : Z) (time_filter : string) :
  search_reddit reddit keywords subreddit limit time_filter
  = keywords ≫= (λ keyword,
      submissions_for reddit subreddit limit time_filter keyword ≫= (λ submission,
        post_data keyword submission ::
        (comment_data keyword submission <$>
           filter (λ comment,
                     str_in (str_lower keyword) (str_lower (Comment.body comment)))
                  (Submission.comments submission)))) ∧
  (∀ keyword submission,
     post_data keyword submission !! "keyword" = Some (VStr keyword) ∧
     is_post_record (post_data keyword submission)) ∧
  (∀ keyword submission comment,
     comment_data keyword submission comment !! "keyword" = Some (VStr keyword) ∧
     comment_data keyword submission comment !! "title"
       = post_data keyword submission !! "title" ∧
     is_comment_record (comment_data keyword submission comment)) ∧
  (NoDup keywords →
   keyword_contiguous (search_reddit reddit keywords subreddit limit time_filter)).
Proof.
  split_and!.
  - apply search_reddit_blocks.
  - intros. split; [apply post_data_lookup | apply post_data_is_post].
  - intros keyword submission comment.
    destruct (post_data_lookup keyword submission) as (_ & -> & _).
    split_and!; [apply comment_data_lookup.. | apply comment_data_is_comment].
  - intros Hnd i j k ri rj rk Hij Hjk Hi Hj Hk Hsame.
    destruct (search_reddit_keyword_field reddit keywords subreddit limit time_filter ri)
      as (keyword & Hkeyword & Hri); [by eapply list_elem_of_lookup_2|].
    destruct (keyword_rows_contiguous reddit keywords subreddit limit time_filter
                keyword Hnd Hkeyword) as (before & after & Hsplit & Hout).
    rewrite Hsplit in Hi, Hj, Hk.
    destruct (lookup_in_block _ _ _ _ _ _ Hout Hi Hri) as [Hi1 _].
    destruct (lookup_in_block _ _ _ _ _ _ Hout Hk) as [_ Hk2]; [congruence|].
    apply lookup_app_Some in Hj as [Hj|[_ Hj]];
      [apply lookup_lt_Some in Hj; lia|].
    apply lookup_app_Some in Hj as [Hj|[Hle Hj]]; [|lia].
    rewrite Hri. eapply keyword_block_keyword. by eapply list_elem_of_lookup_2.
Qed.

End grouping.

(** ** The tabular writer *)

(** C7. For a non-empty [results] and a destination that opens, the first row
    [save_to_csv] writes to the file is [sorted_fieldnames results]: a duplicate-free list in
    lexicographic order holding exactly the keys that occur in some row; any
    reordering of [results] gives the same list. *)
Theorem header_sorted_union (results results' : list record) (filename : string)
    (w : World) :
  results ≠ [] →
  results ≡ₚ results' →
  writable w filename = true →
  (∃ rows, files (save_to_csv results filename w).1 !! filename
           = Some (sorted_fieldnames results :: rows)) ∧
  Sorted str_le (sorted_fieldnames results) ∧
  NoDup (sorted_fieldnames results) ∧
  (∀ key, key ∈ sorted_fieldnames results ↔ ∃ r, r ∈ results ∧ is_Some (r !! key)) ∧
  sorted_fieldnames results' = sorted_fieldnames results.
Proof.
  intros Hne Hp Hopens. split_and!.
  - rewrite save_to_csv_rows by done. eexists. apply lookup_insert_eq.
  - apply sorted_fieldnames_sorted.
  - apply sorted_fieldnames_NoDup.
  - apply elem_of_sorted_fieldnames.
  - unfold sorted_fieldnames. by rewrite (collect_fieldnames_perm _ _ Hp).
Qed.


(** A row in which every column is present is rendered from its own values. *)
Lemma render_present (r : record) (keys : list string) :
  Forall (λ key, is_Some (r !! key)) keys →
  ∃ cells,
    map (λ key, from_option str_value restval (r !! key)) keys = str_value <$> cells ∧
    Forall2 (λ key cell, r !! key = Some cell) keys cells.
Proof.
  induction 1 as [|key keys [cell Hcell] _ (cells & Hcells & Hlook)].
  - by exists [].
  - exists (cell :: cells). split; [|by constructor].
    rewrite fmap_cons. simpl. rewrite Hcell. simpl. f_equal. exact Hcells.
Qed.

Section schema.
Context `{Builtins}.

Lemma search_reddit_dom (reddit : Reddit) (keywords : list string)
    (subreddit : option string) (limit : Z) (time_filter : string) (r : record) :
  r ∈ search_reddit reddit keywords subreddit limit time_filter →
  dom r = record_fields.
Proof.
  intros Hr. apply elem_of_search_reddit in Hr
    as (keyword & submission & _ & _ & [->|(comment & _ & _ & ->)]).
  - apply post_data_dom.
  - apply comment_data_dom.
Qed.

(** C10. Every row of the output has the eleven field names as its key set.
    Hence the union computed by the writer is the key set of any one row, the
    header is the eleven names in sorted order, and rendering a row under
    that header finds a value for every column, the default for absent
    fields being used nowhere. *)
Theorem fixed_schema (reddit : Reddit) (keywords : list string)
    (subreddit : option string) (limit : Z) (time_filter : string) (r : record) :
  r ∈ search_reddit reddit keywords subreddit limit time_filter →
  dom r = record_fields ∧
  size (dom r) = 11%nat ∧
  collect_fieldnames (search_reddit reddit keywords subreddit limit time_filter) = dom r ∧
  sorted_fieldnames (search_reddit reddit keywords subreddit limit time_filter)
    = sorted_record_fields ∧
  Forall (λ key, is_Some (r !! key))
    (sorted_fieldnames (search_reddit reddit keywords subreddit limit time_filter)) ∧
  ∃ cells,
    dict_to_list
      (sorted_fieldnames (search_reddit reddit keywords subreddit limit time_filter)) r
      = Some (str_value <$> cells) ∧
    Forall2 (λ key cell, r !! key = Some cell)
      (sorted_fieldnames (search_reddit reddit keywords subreddit limit time_filter)) cells.
Proof.
  set (results := search_reddit reddit keywords subreddit limit time_filter).
  intros Hr.
  assert (dom r = record_fields) as Hdom by by eapply search_reddit_dom.
  assert (collect_fieldnames results = record_fields) as Hunion.
  { apply set_eq. intros key. rewrite elem_of_collect_fieldnames. split.
    - intros (r' & Hr' & Hkey). by rewrite <-(search_reddit_dom _ _ _ _ _ _ Hr').
    - intros Hkey. exists r. by rewrite Hdom. }
  assert (sorted_fieldnames results = sorted_record_fields) as Hheader.
  { apply sorted_fieldnames_of_set; [| |done].
    - apply (bool_decide_unpack (NoDup sorted_record_fields)). by vm_compute.
    - apply (bool_decide_unpack (Sorted str_le sorted_record_fields)). by vm_compute. }
  assert (Forall (λ key, is_Some (r !! key)) (sorted_fieldnames results)) as Hall.
  { apply Forall_forall. intros key Hkey. apply elem_of_dom.
    rewrite Hdom. unfold record_fields. rewrite elem_of_list_to_set. by rewrite <-Hheader. }
  split_and!; [done| |congruence|done|done|].
  - rewrite Hdom. by vm_compute.
  - rewrite dict_to_list_covered.
    + destruct (render_present r _ Hall) as (cells & -> & Hcells). by exists cells.
    + intros key Hkey. apply elem_of_sorted_fieldnames. by exists r.
Qed.

End schema.

(** ** The sample run *)

Lemma comment_record_contains_keyword_witness :
  @comment_data ascii_builtins "Rust" link_post comment_hit ∈ sample_output ∧
  is_comment_record (@comment_data ascii_builtins "Rust" link_post comment_hit) ∧
  (∃ keyword body pre post,
     @comment_data ascii_builtins "Rust" link_post comment_hit !! "keyword"
       = Some (VStr keyword) ∧
     @comment_data ascii_builtins "Rust" link_post comment_hit !! "content"
       = Some (VStr body) ∧
     str_in (ascii_str_lower keyword) (ascii_str_lower body) = true ∧
     ascii_str_lower body = pre +:+ ascii_str_lower keyword +:+ post) ∧
  @comment_step ascii_builtins "Rust" link_post [] comment_miss = [].
Proof.
  assert (@comment_data ascii_builtins "Rust" link_post comment_hit ∈ sample_output)
    as Hin by (apply (bool_decide_unpack _); vm_compute; exact I).
  assert (is_comment_record (@comment_data ascii_builtins "Rust" link_post comment_hit))
    as Hcomment by (vm_compute; reflexivity).
  pose proof (@comment_record_contains_keyword ascii_builtins sample_reddit
                ["Rust"; "go"] None 2 "week" _ Hin Hcomment) as [Hsub Hmiss].
  split_and!; [exact Hin | exact Hcomment | exact Hsub |].
  apply Hmiss. vm_compute. reflexivity.
Defined.

Lemma sample_reddit_respects_limit : respects_limit sample_reddit.
Proof.
  intros name query sort time_filter limit. simpl. rewrite length_take. simpl. lia.
Qed.

Lemma post_records_bounded_witness :
  respects_limit sample_reddit ∧
  0 ≤ 2 ∧
  Z.of_nat (length (filter is_post_record sample_output)) ≤ 2 * Z.of_nat 2.
Proof.
  assert (0 ≤ 2) as Hlimit by lia.
  split_and!; [exact sample_reddit_respects_limit | exact Hlimit |].
  exact (@post_records_bounded ascii_builtins sample_reddit ["Rust"; "go"] None 2
           "week" sample_reddit_respects_limit Hlimit).
Defined.

(** C2 as stated fails for a negative limit: the client, which respects the
    limit, returns nothing, and no rows is more than [limit] times one
    keyword. *)
Lemma post_records_bounded_counterexample :
  respects_limit sample_reddit ∧
  ¬ (Z.of_nat (length (filter is_post_record
                         (@search_reddit ascii_builtins sample_reddit ["Rust"] None (-1)
                            "week")))
       ≤ -1 * Z.of_nat (length ["Rust"])).
Proof.
  split; [exact sample_reddit_respects_limit|].
  vm_compute. intros Hle. by apply Hle.
Qed.

(** C5 as stated fails when a keyword is listed twice: the rows of the
    first and of the last entry carry the same keyword, and the rows of the
    entry between them do not. *)
Lemma search_reddit_grouped_counterexample :
  ¬ keyword_contiguous
      (@search_reddit ascii_builtins sample_reddit ["go"; "Rust"; "go"] None 2 "week").
Proof.
  intros Hcontiguous.
  pose proof (Hcontiguous 0%nat 2%nat 6%nat
                (@post_data ascii_builtins "go" link_post)
                (@post_data ascii_builtins "Rust" link_post)
                (@post_data ascii_builtins "go" link_post)) as Hbetween.
  rewrite (proj1 (@post_data_lookup ascii_builtins "Rust" link_post)) in Hbetween.
  rewrite (proj1 (@post_data_lookup ascii_builtins "go" link_post)) in Hbetween.
  assert (Some (VStr "Rust") = Some (VStr "go")) as Hsame; [|discriminate].
  apply Hbetween; [lia | lia | reflexivity..].
Qed.

Lemma search_reddit_grouped_witness :
  NoDup ["Rust"; "go"] ∧
  keyword_contiguous sample_output.
Proof.
  assert (NoDup ["Rust"; "go"]) as Hnd
    by (apply (bool_decide_unpack (NoDup ["Rust"; "go"])); exact I).
  split; [exact Hnd|].
  exact (proj2 (proj2 (proj2 (@search_reddit_grouped ascii_builtins sample_reddit
                                ["Rust"; "go"] None 2 "week"))) Hnd).
Defined.

Lemma post_author_of_deleted_account_witness :
  "Rust" ∈ ["Rust"; "go"] ∧
  link_post ∈ submissions_for sample_reddit None 2 "week" "Rust" ∧
  Submission.author link_post = None ∧
  @post_data ascii_builtins "Rust" link_post ∈ sample_output ∧
  @post_data ascii_builtins "Rust" link_post !! "author" = Some (VStr "None") ∧
  @post_data ascii_builtins "Rust" link_post !! "author" ≠ Some (VStr "[deleted]").
Proof.
  assert ("Rust" ∈ ["Rust"; "go"]) as Hk by left.
  assert (link_post ∈ submissions_for sample_reddit None 2 "week" "Rust") as Hs by left.
  split_and!; [exact Hk | exact Hs | reflexivity |..];
    apply (@post_author_of_deleted_account ascii_builtins sample_reddit ["Rust"; "go"]
             None 2 "week" "Rust" link_post Hk Hs eq_refl).
Defined.

(** C4 as stated fails on a text post with an empty body: the row holds the
    external-link marker, not the (empty) body. *)
Lemma post_content_counterexample :
  ¬ ((Submission.is_self title_only_post = true →
      @post_data ascii_builtins "Rust" title_only_post !! "content"
        = Some (VStr (Submission.selftext title_only_post))) ∧
     (Submission.is_self title_only_post = false →
      @post_data ascii_builtins "Rust" title_only_post !! "content"
        = Some (VStr "[External link]"))).
Proof. intros [Hbody _]. specialize (Hbody eq_refl). vm_compute in Hbody. discriminate. Qed.

Lemma post_content_witness :
  (Submission.is_self text_post = true ∧
   Submission.selftext text_post ≠ EmptyString ∧
   @post_data ascii_builtins "Rust" text_post !! "content"
     = Some (VStr "Long story short: the borrow checker.")) ∧
  ((Submission.is_self title_only_post = false ∨
    Submission.selftext title_only_post = EmptyString) ∧
   @post_data ascii_builtins "Rust" title_only_post !! "content"
     = Some (VStr "[External link]")).
Proof.
  assert (Submission.selftext text_post ≠ EmptyString) as Hbody by discriminate.
  split.
  - split_and!; [reflexivity | exact Hbody |].
    exact (proj1 (@post_content ascii_builtins "Rust" text_post) eq_refl Hbody).
  - split; [right; reflexivity|].
    exact (proj2 (@post_content ascii_builtins "Rust" title_only_post)
             (or_intror eq_refl)).
Defined.

Lemma comment_record_id_witness :
  "Rust" ∈ ["Rust"; "go"] ∧
  link_post ∈ submissions_for sample_reddit None 2 "week" "Rust" ∧
  comment_hit ∈ Submission.comments link_post ∧
  str_in (ascii_str_lower "Rust") (ascii_str_lower (Comment.body comment_hit)) = true ∧
  Comment.id comment_hit ≠ Submission.id link_post ∧
  @comment_data ascii_builtins "Rust" link_post comment_hit ∈ sample_output ∧
  @comment_data ascii_builtins "Rust" link_post comment_hit !! "post_id"
    = Some (VStr "c1") ∧
  @comment_data ascii_builtins "Rust" link_post comment_hit !! "content_type"
    = Some (VStr "comment").
Proof.
  assert ("Rust" ∈ ["Rust"; "go"]) as Hk by left.
  assert (link_post ∈ submissions_for sample_reddit None 2 "week" "Rust") as Hs by left.
  assert (comment_hit ∈ Submission.comments link_post) as Hc by left.
  assert (str_in (ascii_str_lower "Rust") (ascii_str_lower (Comment.body comment_hit))
          = true) as Hin by (vm_compute; reflexivity).
  split_and!; [exact Hk | exact Hs | exact Hc | exact Hin | discriminate |..];
    apply (@comment_record_id ascii_builtins sample_reddit ["Rust"; "go"] None 2 "week"
             "Rust" link_post comment_hit Hk Hs Hc Hin).
Defined.

Lemma comment_record_is_self_post_witness :
  @comment_data ascii_builtins "Rust" link_post comment_hit ∈ sample_output ∧
  is_comment_record (@comment_data ascii_builtins "Rust" link_post comment_hit) ∧
  Submission.is_self link_post = false ∧
  @comment_data ascii_builtins "Rust" link_post comment_hit !! "is_self_post"
    = Some (VBool true).
Proof.
  assert (@comment_data ascii_builtins "Rust" link_post comment_hit ∈ sample_output)
    as Hin by (apply (bool_decide_unpack _); vm_compute; exact I).
  assert (is_comment_record (@comment_data ascii_builtins "Rust" link_post comment_hit))
    as Hcomment by (vm_compute; reflexivity).
  split_and!; [exact Hin | exact Hcomment | reflexivity |].
  exact (proj1 (@comment_record_is_self_post ascii_builtins sample_reddit
                  ["Rust"; "go"] None 2 "week" _ Hin Hcomment)).
Defined.

Lemma header_sorted_union_witness :
  sample_rows ≠ [] ∧
  sample_rows ≡ₚ sample_rows_swapped ∧
  writable empty_world "out.csv" = true ∧
  files (save_to_csv sample_rows "out.csv" empty_world).1 !! "out.csv"
    = Some [["author"; "score"; "title"]; [EmptyString; "5"; "b"]; ["alice"; EmptyString; "a"]] ∧
  sorted_fieldnames sample_rows = ["author"; "score"; "title"] ∧
  sorted_fieldnames sample_rows_swapped = sorted_fieldnames sample_rows.
Proof.
  assert (sample_rows ≠ []) as Hne by discriminate.
  assert (sample_rows ≡ₚ sample_rows_swapped) as Hp by apply perm_swap.
  split_and!; [exact Hne | exact Hp | reflexivity | by vm_compute | by vm_compute |].
  apply (header_sorted_union sample_rows sample_rows_swapped "out.csv" empty_world Hne Hp
           eq_refl).
Defined.


Lemma fixed_schema_witness :
  @post_data ascii_builtins "go" text_post ∈ sample_output ∧
  dom (@post_data ascii_builtins "go" text_post) = record_fields ∧
  sorted_fieldnames sample_output = sorted_record_fields.
Proof.
  assert (@post_data ascii_builtins "go" text_post ∈ sample_output)
    as Hin by (apply (bool_decide_unpack _); vm_compute; exact I).
  pose proof (@fixed_schema ascii_builtins sample_reddit ["Rust"; "go"] None 2 "week"
                _ Hin) as (Hdom & _ & _ & Hheader & _).
  split_and!; [exact Hin | exact Hdom | exact Hheader].
Defined.

(** * Further properties *)

(** ** Runs of the pipeline *)

Lemma append_assoc (a b c : string) : (a +:+ b) +:+ c = a +:+ b +:+ c.
Proof. induction a as [|x a IH]; [done|]. by rewrite !append_cons, IH. Qed.

Lemma submissions_for_scope (reddit : Reddit) (subreddit : option string) (limit : Z)
    (time_filter : string) (keyword : string) :
  submissions_for reddit subreddit limit time_filter keyword
  = subreddit_search reddit (search_scope subreddit) (dquote +:+ keyword +:+ dquote)
      "new" time_filter limit.
Proof. unfold submissions_for, search_scope. by destruct subreddit as [[|??]|]. Qed.

Lemma str_in_empty_needle (hay : string) : str_in EmptyString hay = true.
Proof. by destruct hay. Qed.

Section pipeline_runs.
Context `{Builtins}.

(** X1. Searching for two keyword lists one after the other gives the rows of
    the first list followed by the rows of the second: nothing is carried
    over from one keyword to the next. *)
Theorem search_reddit_app (reddit : Reddit) (keywords keywords' : list string)
    (subreddit : option string) (limit : Z) (time_filter : string) :
  search_reddit reddit (keywords ++ keywords') subreddit limit time_filter
  = search_reddit reddit keywords subreddit limit time_filter
    ++ search_reddit reddit keywords' subreddit limit time_filter.
Proof. by rewrite !search_reddit_blocks, bind_app. Qed.

(** X2. The output is empty exactly when every search of the run came back
    without a submission. *)
Theorem search_reddit_empty_iff (reddit : Reddit) (keywords : list string)
    (subreddit : option string) (limit : Z) (time_filter : string) :
  search_reddit reddit keywords subreddit limit time_filter = [] ↔
  ∀ keyword, keyword ∈ keywords →
    submissions_for reddit subreddit limit time_filter keyword = [].
Proof.
  split.
  - intros Hnil keyword Hk.
    destruct (submissions_for reddit subreddit limit time_filter keyword)
      as [|submission rest] eqn:Hsubs; [done|].
    assert (post_data keyword submission
            ∈ search_reddit reddit keywords subreddit limit time_filter) as Hin.
    { apply elem_of_search_reddit. exists keyword, submission.
      split_and!; [done | rewrite Hsubs; left | by left]. }
    rewrite Hnil in Hin. by apply elem_of_nil in Hin.
  - intros Hnone. destruct (search_reddit _ _ _ _ _) as [|r rest] eqn:Hout; [done|].
    assert (r ∈ search_reddit reddit keywords subreddit limit time_filter) as Hin
      by (rewrite Hout; left).
    apply elem_of_search_reddit in Hin as (keyword & submission & Hk & Hs & _).
    rewrite (Hnone keyword Hk) in Hs. by apply elem_of_nil in Hs.
Qed.

Lemma submission_block_comments (keyword : string) (submission : Submission.t) :
  filter is_comment_record (submission_block keyword submission)
  = comment_rows keyword submission.
Proof.
  unfold submission_block.
  rewrite filter_cons_False
    by (intros Hc; apply (comment_not_post _ Hc), post_data_is_post).
  unfold comment_rows.
  induction (filter _ (Submission.comments submission)) as [|c cs IH]; [done|].
  rewrite fmap_cons, filter_cons_True by apply comment_data_is_comment.
  by rewrite IH.
Qed.

Lemma filter_bind {A B : Type} (P : B → Prop) `{∀ x, Decision (P x)}
    (f : A → list B) (l : list A) :
  filter P (l ≫= f) = l ≫= (λ x, filter P (f x)).
Proof.
  induction l as [|x l IH]; [done|]. by rewrite !bind_cons, filter_app, IH.
Qed.

(** X3. Every returned submission gives exactly one post row, and the post rows
    stand in the output in the order of the keywords and, within a keyword,
    in the order the search returned the submissions; a submission returned
    for two keywords gives two post rows. *)
Theorem post_rows_in_order (reddit : Reddit) (keywords : list string)
    (subreddit : option string) (limit : Z) (time_filter : string) :
  filter is_post_record (search_reddit reddit keywords subreddit limit time_filter)
  = keywords ≫= (λ keyword,
      post_data keyword <$> submissions_for reddit subreddit limit time_filter keyword).
Proof.
  rewrite search_reddit_blocks, filter_bind.
  induction keywords as [|k ks IH]; [done|]. rewrite !bind_cons, IH. f_equal.
  unfold keyword_block. rewrite filter_bind.
  induction (submissions_for reddit subreddit limit time_filter k) as [|s ss IHs];
    [done|].
  by rewrite bind_cons, submission_block_posts, fmap_cons, IHs.
Qed.

(** X4. The comment rows of the output are, in the same order, the rows of the
    comments that pass the keyword test, and no others. *)
Theorem comment_rows_in_order (reddit : Reddit) (keywords : list string)
    (subreddit : option string) (limit : Z) (time_filter : string) :
  filter is_comment_record (search_reddit reddit keywords subreddit limit time_filter)
  = keywords ≫= (λ keyword,
      submissions_for reddit subreddit limit time_filter keyword ≫= (λ submission,
        comment_data keyword submission <$>
          filter (λ comment,
                    str_in (str_lower keyword) (str_lower (Comment.body comment)))
                 (Submission.comments submission))).
Proof.
  rewrite search_reddit_blocks, filter_bind.
  induction keywords as [|k ks IH]; [done|]. rewrite !bind_cons, IH. f_equal.
  unfold keyword_block. rewrite filter_bind.
  induction (submissions_for reddit subreddit limit time_filter k) as [|s ss IHs];
    [done|].
  by rewrite !bind_cons, submission_block_comments, IHs.
Qed.

(** X5. Each row of the output is tagged as a submission or as a comment, never
    both, so the rows of the two kinds add up to the whole output. *)
Theorem rows_partitioned (reddit : Reddit) (keywords : list string)
    (subreddit : option string) (limit : Z) (time_filter : string) :
  Forall (λ r, (is_post_record r ∧ ¬ is_comment_record r) ∨
               (is_comment_record r ∧ ¬ is_post_record r))
    (search_reddit reddit keywords subreddit limit time_filter) ∧
  length (search_reddit reddit keywords subreddit limit time_filter)
  = (length (filter is_post_record
               (search_reddit reddit keywords subreddit limit time_filter))
     + length (filter is_comment_record
                 (search_reddit reddit keywords subreddit limit time_filter)))%nat.
Proof.
  assert (Forall (λ r, (is_post_record r ∧ ¬ is_comment_record r) ∨
                       (is_comment_record r ∧ ¬ is_post_record r))
            (search_reddit reddit keywords subreddit limit time_filter)) as Hkinds.
  { apply Forall_forall. intros r Hr.
    apply elem_of_search_reddit in Hr
      as (keyword & submission & _ & _ & [->|(comment & _ & _ & ->)]).
    - left. split; [apply post_data_is_post|].
      intros Hc. apply (comment_not_post _ Hc), post_data_is_post.
    - right. split; [apply comment_data_is_comment|].
      apply comment_not_post, comment_data_is_comment. }
  split; [done|].
  induction Hkinds as [|r rows [[Hp Hnc]|[Hc Hnp]] _ IH]; [done|..].
  - rewrite filter_cons_True, filter_cons_False by done. simpl. by rewrite IH.
  - rewrite filter_cons_False, filter_cons_True by done. simpl. rewrite IH. lia.
Qed.

(** X6. A missing or empty community name sends the searches to all of Reddit:
    the run is the one with no community given. *)
Theorem search_reddit_falsy_subreddit (reddit : Reddit) (keywords : list string)
    (subreddit : option string) (limit : Z) (time_filter : string) :
  opt_truthy subreddit = false →
  search_reddit reddit keywords subreddit limit time_filter
  = search_reddit reddit keywords None limit time_filter.
Proof. by destruct subreddit as [[|??]|]. Qed.

(** X7. The client is only ever asked for the newest matches of the quoted
    keywords in the one community of the run: two clients that agree on
    those searches give the same output. *)
Theorem search_reddit_queries (reddit reddit' : Reddit) (keywords : list string)
    (subreddit : option string) (limit : Z) (time_filter : string) :
  (∀ keyword, keyword ∈ keywords →
     subreddit_search reddit (search_scope subreddit) (dquote +:+ keyword +:+ dquote)
       "new" time_filter limit
     = subreddit_search reddit' (search_scope subreddit) (dquote +:+ keyword +:+ dquote)
         "new" time_filter limit) →
  search_reddit reddit keywords subreddit limit time_filter
  = search_reddit reddit' keywords subreddit limit time_filter.
Proof.
  intros Hagree. rewrite !search_reddit_blocks.
  induction keywords as [|k ks IH]; [done|].
  rewrite !bind_cons, IH by (intros; apply Hagree; by right). f_equal.
  unfold keyword_block. rewrite !submissions_for_scope, Hagree; [done | left].
Qed.

(** X8. An empty keyword passes the test on every comment (the empty text
    lower-cases to itself), so a turn of the submission loop appends the
    post row followed by a row for every one of its comments. *)
Theorem empty_keyword_matches_all (submission : Submission.t) :
  str_lower EmptyString = EmptyString →
  ∀ results,
    submission_step EmptyString results submission
    = results ++ post_data EmptyString submission ::
        (comment_data EmptyString submission <$> Submission.comments submission).
Proof.
  intros Hlower results. rewrite submission_step_block.
  unfold submission_block, comment_rows. f_equal. f_equal. f_equal.
  induction (Submission.comments submission) as [|c cs IH]; [done|].
  rewrite filter_cons_True; [by rewrite IH|].
  rewrite Hlower, str_in_empty_needle. done.
Qed.

(** X9. Keywords that lower-case to the same text select the same comments:
    the rows a turn of the submission loop appends for them differ in the
    keyword field only. *)
Theorem keyword_case_irrelevant (keyword keyword' : string) (submission : Submission.t)
    (results : list record) :
  str_lower keyword = str_lower keyword' →
  delete "keyword" <$> submission_step keyword results submission
  = delete "keyword" <$> submission_step keyword' results submission.
Proof.
  intros Hlower. rewrite !submission_step_block, !fmap_app. f_equal.
  unfold submission_block, comment_rows. rewrite !fmap_cons. f_equal.
  - apply map_eq. intros key. destruct (decide (key = "keyword")) as [->|Hne].
    + by rewrite !lookup_delete_eq.
    + rewrite !lookup_delete_ne by done. unfold post_data, py_dict.
      destruct (Submission.is_self submission
                && str_truthy (Submission.selftext submission));
        cbn [foldl fst snd]; rewrite !lookup_insert;
        repeat case_decide; congruence.
  - rewrite Hlower, <-!list_fmap_compose. apply list_fmap_ext. intros _ comment _.
    apply map_eq. intros key. cbn [compose].
    destruct (decide (key = "keyword")) as [->|Hne].
    + by rewrite !lookup_delete_eq.
    + rewrite !lookup_delete_ne by done. unfold comment_data, py_dict.
      cbn [foldl fst snd]. rewrite !lookup_insert.
      repeat case_decide; congruence.
Qed.

(** X10. A comment row repeats the title and community of the post it hangs
    under, and its link is the post's link followed by the comment's id and
    a slash. *)
Theorem comment_row_inherits (keyword : string) (submission : Submission.t)
    (comment : Comment.t) :
  comment_data keyword submission comment !! "title"
    = post_data keyword submission !! "title" ∧
  comment_data keyword submission comment !! "subreddit"
    = post_data keyword submission !! "subreddit" ∧
  ∃ link,
    post_data keyword submission !! "url" = Some (VStr link) ∧
    comment_data keyword submission comment !! "url"
      = Some (VStr (link +:+ Comment.id comment +:+ "/")).
Proof.
  assert (post_data keyword submission !! "title"
            = Some (VStr (Submission.title submission)) ∧
          post_data keyword submission !! "subreddit"
            = Some (VStr (Submission.subreddit_display_name submission)) ∧
          post_data keyword submission !! "url"
            = Some (VStr ("https://www.reddit.com" +:+ Submission.permalink submission)))
    as (-> & -> & Hurl).
  { unfold post_data.
    destruct (Submission.is_self submission && str_truthy (Submission.selftext submission));
      by vm_compute. }
  split_and!; [by vm_compute..|].
  eexists. split; [exact Hurl|]. rewrite append_assoc. by vm_compute.
Qed.

End pipeline_runs.

(** ** Files written by [save_to_csv] *)

Lemma save_to_csv_files (results : list record) (filename : string) (w : World) :
  files (save_to_csv results filename w).1
  = match results with
    | [] => files w
    | _ :: _ =>
        if writable w filename
        then <[filename := sorted_fieldnames results ::
                 map (λ r, map (λ key, from_option str_value restval (r !! key))
                               (sorted_fieldnames results)) results]> (files w)
        else files w
    end.
Proof.
  destruct results as [|r results]; [done|].
  destruct (writable w filename) eqn:Hopens.
  - by rewrite save_to_csv_rows.
  - unfold save_to_csv. by rewrite Hopens.
Qed.

Lemma save_to_csv_other_paths_aux (results : list record) (filename path : string)
    (w : World) :
  path ≠ filename →
  files (save_to_csv results filename w).1 !! path = files w !! path.
Proof.
  intros Hpath. rewrite save_to_csv_files.
  destruct results; [done|].
  destruct (writable w filename); [by rewrite lookup_insert_ne | done].
Qed.

(** X12. Whatever the rows, [save_to_csv] leaves every path other than its
    destination as it was, and on an empty [results] the destination too. *)
Theorem save_to_csv_other_paths (results : list record) (filename path : string)
    (w : World) :
  path ≠ filename ∨ results = [] →
  files (save_to_csv results filename w).1 !! path = files w !! path.
Proof.
  intros [Hpath | ->]; [by apply save_to_csv_other_paths_aux | done].
Qed.

(** X13. A destination that opens is overwritten, not appended to: what it
    holds after a save does not depend on what any file held before, and
    saving the same rows again leaves the files as the first save left
    them. *)
Theorem save_to_csv_overwrites (results : list record) (filename : string)
    (w w' : World) :
  results ≠ [] →
  writable w filename = true →
  writable w' filename = true →
  files (save_to_csv results filename w).1 !! filename
    = files (save_to_csv results filename w').1 !! filename ∧
  files (save_to_csv results filename (save_to_csv results filename w).1).1
    = files (save_to_csv results filename w).1.
Proof.
  intros Hne Hopens Hopens'. split.
  - rewrite !save_to_csv_files. destruct results as [|r results]; [done|].
    by rewrite Hopens, Hopens', !lookup_insert_eq.
  - rewrite (save_to_csv_rows results filename w) by done.
    rewrite save_to_csv_files. destruct results as [|r results]; [done|].
    simpl. rewrite Hopens. by rewrite insert_insert_eq.
Qed.

(** X14. The file written to a destination that opens is a rectangular table:
    a header, then one row per record in the order of [results], every row
    as wide as the header. *)
Theorem save_to_csv_table (results : list record) (filename : string) (w : World) :
  results ≠ [] →
  writable w filename = true →
  ∃ rows,
    files (save_to_csv results filename w).1 !! filename
      = Some (sorted_fieldnames results :: rows) ∧
    length rows = length results ∧
    Forall (λ row, length row = length (sorted_fieldnames results)) rows.
Proof.
  intros Hne Hopens. rewrite save_to_csv_files.
  destruct results as [|r results]; [done|]. rewrite Hopens.
  eexists. split_and!; [apply lookup_insert_eq | by rewrite length_map |].
  apply Forall_forall. intros row Hrow.
  apply list_elem_of_fmap in Hrow as (r' & -> & _). by rewrite length_map.
Qed.

(** X15. In the file written to a destination that opens, the cell of record
    number [j] in column number [i] is the text of the record's value for
    that column's field, and empty when the record has no such field. *)
Theorem save_to_csv_cell (results : list record) (filename : string) (w : World)
    (j i : nat) (r : record) (key : string) :
  results !! j = Some r →
  sorted_fieldnames results !! i = Some key →
  writable w filename = true →
  ∃ rows row,
    files (save_to_csv results filename w).1 !! filename
      = Some (sorted_fieldnames results :: rows) ∧
    rows !! j = Some row ∧
    row !! i = Some (match r !! key with
                     | Some v => str_value v
                     | None => EmptyString
                     end).
Proof.
  intros Hj Hi Hopens. rewrite save_to_csv_files.
  destruct results as [|r0 results]; [done|]. rewrite Hopens.
  eexists _, _. split_and!; [apply lookup_insert_eq | |].
  - change (map ?f ?l) with (f <$> l). by rewrite list_lookup_fmap, Hj.
  - simpl. change (map ?f ?l) with (f <$> l). rewrite list_lookup_fmap, Hi. simpl.
    by destruct (r !! key).
Qed.


(** ** Splitting the keyword argument *)

Lemma str_split_cons (sep c : ascii) (s : string) :
  str_split sep (String c s)
  = if Ascii.eqb c sep then EmptyString :: str_split sep s
    else match str_split sep s with
         | piece :: pieces => String c piece :: pieces
         | [] => [String c EmptyString]
         end.
Proof. reflexivity. Qed.

Lemma str_split_nonempty (sep : ascii) (s : string) : str_split sep s ≠ [].
Proof.
  induction s as [|c s IH]; [done|]. rewrite str_split_cons.
  destruct (Ascii.eqb c sep); [done|]. by destruct (str_split sep s).
Qed.

(** A split has one more piece than the text has separators. *)
Lemma str_split_length (sep : ascii) (s : string) :
  length (str_split sep s)
  = S (length (filter (λ c, c = sep) (list_ascii_of_string s))).
Proof.
  induction s as [|c s IH]; [done|]. rewrite str_split_cons. simpl.
  destruct (Ascii.eqb_spec c sep) as [->|Hne].
  - rewrite filter_cons_True by done. simpl. by rewrite IH.
  - rewrite filter_cons_False by done. rewrite <-IH.
    pose proof (str_split_nonempty sep s). by destruct (str_split sep s).
Qed.

(** X16. Splitting at a character and joining with it gives the text back. *)
Theorem str_split_join (sep : ascii) (s : string) :
  String.concat (String sep EmptyString) (str_split sep s) = s.
Proof.
  induction s as [|c s IH]; [done|]. rewrite str_split_cons.
  pose proof (str_split_nonempty sep s) as Hne.
  destruct (Ascii.eqb_spec c sep) as [->|Hneq].
  - destruct (str_split sep s) as [|piece pieces]; [done|].
    change (String.concat ?x (EmptyString :: ?p :: ?ps))
      with (String sep (String.concat x (p :: ps))).
    by rewrite IH.
  - destruct (str_split sep s) as [|piece pieces]; [done|].
    destruct pieces as [|piece' pieces].
    + simpl in *. by rewrite IH.
    + change (String.concat ?x (String c ?p :: ?q :: ?ps))
        with (String c (String.concat x (p :: q :: ps))).
      by rewrite IH.
Qed.

(** X17. No piece of a split holds the separator. *)
Theorem str_split_pieces (sep : ascii) (s : string) :
  Forall (λ piece, str_in (String sep EmptyString) piece = false) (str_split sep s).
Proof.
  induction s as [|c s IH]; [by repeat constructor|]. rewrite str_split_cons.
  pose proof (str_split_nonempty sep s) as Hne.
  destruct (Ascii.eqb_spec c sep) as [->|Hneq]; [by constructor|].
  destruct (str_split sep s) as [|piece pieces]; [done|].
  apply Forall_cons in IH as [Hpiece Hpieces]. constructor; [|done].
  rewrite str_in_cons, Hpiece, orb_false_r. simpl.
  destruct (Ascii.ascii_dec sep c) as [->|_]; [done|]. done.
Qed.

(** ** Runs of [main] *)

(** A loop that raises nothing computes what the loop without exceptions
    computes. *)
Lemma for_each_sound {S A : Type} (body : S → A → option S) (step : S → A → S)
    (items : list A) :
  (∀ state item state', body state item = Some state' → state' = step state item) →
  ∀ state out, for_each body state items = Some out → out = foldl step state items.
Proof.
  intros Hbody. induction items as [|item items IH]; intros state out; simpl.
  - by intros [= ->].
  - destruct (body state item) as [state'|] eqn:Hitem; [|done].
    rewrite (Hbody _ _ _ Hitem). apply IH.
Qed.

Lemma for_each_complete {S A : Type} (body : S → A → option S) (step : S → A → S)
    (items : list A) :
  (∀ state item, item ∈ items → body state item = Some (step state item)) →
  ∀ state, for_each body state items = Some (foldl step state items).
Proof.
  induction items as [|item items IH]; intros Hbody state; simpl; [done|].
  rewrite Hbody by left. apply IH. intros. apply Hbody. by right.
Qed.

Section main_runs.
Context `{Builtins} `{Externals}.

Lemma search_reddit_header (reddit : Reddit) (keywords : list string)
    (subreddit : option string) (limit : Z) (time_filter : string) :
  search_reddit reddit keywords subreddit limit time_filter ≠ [] →
  sorted_fieldnames (search_reddit reddit keywords subreddit limit time_filter)
  = sorted_record_fields.
Proof.
  intros Hne. apply sorted_fieldnames_of_set.
  - apply (bool_decide_unpack (NoDup sorted_record_fields)). by vm_compute.
  - apply (bool_decide_unpack (Sorted str_le sorted_record_fields)). by vm_compute.
  - fold record_fields. apply set_eq. intros key.
    rewrite elem_of_collect_fieldnames. split.
    + intros (r & Hr & Hkey). by rewrite <-(search_reddit_dom _ _ _ _ _ _ Hr).
    + intros Hkey.
      destruct (search_reddit reddit keywords subreddit limit time_filter)
        as [|r rest] eqn:Hout; [done|].
      exists r. split; [left|].
      rewrite (search_reddit_dom reddit keywords subreddit limit time_filter r); [done|].
      rewrite Hout. left.
Qed.

Lemma submissions_for_answers (client : Client) (subreddit : option string) (limit : Z)
    (time_filter : string) (keyword : string) (submissions : list Submission.t) :
  submissions_for_checked client subreddit limit time_filter keyword = Some submissions →
  submissions_for (answers client) subreddit limit time_filter keyword = submissions.
Proof.
  unfold submissions_for_checked, submissions_for.
  destruct subreddit as [[|c name]|]; simpl; by intros ->.
Qed.

Lemma submission_step_sound (client : Client) (keyword : string)
    (results : list record) (submission : Submission.t) (out : list record) :
  submission_step_checked client keyword results submission = Some out →
  out = submission_step keyword results submission.
Proof.
  unfold submission_step_checked, submission_step.
  destruct (fromtimestamp_raises _); [done|].
  destruct (comments_raise client submission); [done|].
  apply for_each_sound. intros state comment state'.
  unfold comment_step_checked, comment_step.
  destruct (str_in _ _); [|by intros [= ->]].
  destruct (fromtimestamp_raises _); [done | by intros [= ->]].
Qed.

Lemma keyword_step_sound (client : Client) (subreddit : option string) (limit : Z)
    (time_filter : string) (results : list record) (keyword : string)
    (out : list record) :
  keyword_step_checked client subreddit limit time_filter results keyword = Some out →
  out = keyword_step (answers client) subreddit limit time_filter results keyword.
Proof.
  unfold keyword_step_checked, keyword_step.
  destruct (submissions_for_checked _ _ _ _ _) as [submissions|] eqn:Hsubs; [|done].
  rewrite (submissions_for_answers _ _ _ _ _ _ Hsubs).
  apply for_each_sound. intros. by eapply submission_step_sound.
Qed.

Lemma search_reddit_checked_answers (client : Client) (keywords : list string)
    (subreddit : option string) (limit : Z) (time_filter : string)
    (results : list record) :
  search_reddit_checked client keywords subreddit limit time_filter = Some results →
  results = search_reddit (answers client) keywords subreddit limit time_filter.
Proof.
  unfold search_reddit_checked, search_reddit.
  apply for_each_sound. intros. by eapply keyword_step_sound.
Qed.

(** X23. When no exception leaves the searches, the rows [main] goes on with
    are the rows of [search_reddit] on what the client answered: what is
    proved of [search_reddit] holds of every run that gets that far. *)
Theorem search_reddit_checked_sound (client : Client) (keywords : list string)
    (subreddit : option string) (limit : Z) (time_filter : string)
    (results : list record) :
  search_reddit_checked client keywords subreddit limit time_filter = Some results →
  results = search_reddit (answers client) keywords subreddit limit time_filter ∧
  ∀ keyword, keyword ∈ keywords →
    submissions_for_checked client subreddit limit time_filter keyword
    = Some (submissions_for (answers client) subreddit limit time_filter keyword).
Proof.
  intros Hrun. split; [by apply search_reddit_checked_answers|].
  revert Hrun. unfold search_reddit_checked. generalize (@nil record).
  induction keywords as [|k ks IH]; intros acc Hrun keyword Hk;
    [by apply elem_of_nil in Hk|].
  simpl in Hrun.
  destruct (keyword_step_checked _ _ _ _ acc k) as [acc'|] eqn:Hstep; [|done].
  apply elem_of_cons in Hk as [->|Hk]; [|by eapply IH].
  unfold keyword_step_checked in Hstep.
  destruct (submissions_for_checked _ _ _ _ k) as [submissions|] eqn:Hsubs; [|done].
  by rewrite (submissions_for_answers _ _ _ _ _ _ Hsubs).
Qed.

(** X24. The searches return when every listing of the run can be drained and,
    for every submission they yield, the time stamp is in range, the
    comments can be fetched, and the time stamp of every comment that passes
    the keyword test is in range. *)
Theorem search_reddit_checked_returns (client : Client) (keywords : list string)
    (subreddit : option string) (limit : Z) (time_filter : string) :
  (∀ keyword, keyword ∈ keywords →
     is_Some (submissions_for_checked client subreddit limit time_filter keyword)) →
  (∀ keyword submission, keyword ∈ keywords →
     submission ∈ submissions_for (answers client) subreddit limit time_filter keyword →
     fromtimestamp_raises (Submission.created_utc submission) = false ∧
     comments_raise client submission = false ∧
     ∀ comment, comment ∈ Submission.comments submission →
       str_in (str_lower keyword) (str_lower (Comment.body comment)) = true →
       fromtimestamp_raises (Comment.created_utc comment) = false) →
  search_reddit_checked client keywords subreddit limit time_filter
  = Some (search_reddit (answers client) keywords subreddit limit time_filter).
Proof.
  intros Hlistings Hitems. unfold search_reddit_checked, search_reddit.
  apply for_each_complete. intros results keyword Hk.
  unfold keyword_step_checked, keyword_step.
  destruct (Hlistings keyword Hk) as [submissions Hsubs]. rewrite Hsubs.
  pose proof (submissions_for_answers _ _ _ _ _ _ Hsubs) as Hanswers.
  rewrite Hanswers. apply for_each_complete. intros results' submission Hs.
  rewrite <-Hanswers in Hs.
  destruct (Hitems keyword submission Hk Hs) as (Hstamp & Hfetch & Hcomments).
  unfold submission_step_checked, submission_step. rewrite Hstamp, Hfetch.
  apply for_each_complete. intros results'' comment Hc.
  unfold comment_step_checked, comment_step.
  destruct (str_in _ _) eqn:Hin; [|done]. by rewrite (Hcomments comment Hc Hin).
Qed.

Lemma main_returns (args : Args.t) (environ : gmap string string) (w : World)
    (reddit : Client) (results : list record) :
  setup_reddit_client environ = Some reddit →
  search_reddit_checked reddit (parse_keywords (Args.keywords args))
    (Args.subreddit args) (Args.limit args) (Args.time args) = Some results →
  results = [] ∨ writable w (Args.output args) = true →
  main args environ w
  = ((save_to_csv results (Args.output args)
        (print ("Found " +:+ pretty (length results) +:+ " mentions")
           (print (scope_line (Args.subreddit args))
              (print ("Searching Reddit for: " +:+
                      String.concat ", " (parse_keywords (Args.keywords args))) w)))).1,
     MainReturned).
Proof.
  intros Hclient Hrun Hopens. unfold main. rewrite Hclient, Hrun.
  destruct Hopens as [-> | Hopens]; [done|].
  destruct results as [|r results]; [done|].
  by rewrite save_to_csv_rows.
Qed.

(** X18. [main] searches for one keyword more than the argument has commas; the
    list is never empty, an empty argument giving one keyword. *)
Theorem parse_keywords_count (keywords : string) :
  length (parse_keywords keywords)
  = S (length (filter (λ c, c = ","%char) (list_ascii_of_string keywords))).
Proof. unfold parse_keywords. by rewrite length_fmap, str_split_length. Qed.

(** X19. When the client is built, no exception leaves the searches, and the
    destination opens or there is nothing to write, [main] runs to its end
    and prints four lines: the keywords, the scope, the number of rows
    found, and either the no-results line or the line naming the file. *)
Theorem main_report (args : Args.t) (environ : gmap string string) (w : World)
    (reddit : Client) (results : list record) :
  setup_reddit_client environ = Some reddit →
  search_reddit_checked reddit (parse_keywords (Args.keywords args))
    (Args.subreddit args) (Args.limit args) (Args.time args) = Some results →
  results = [] ∨ writable w (Args.output args) = true →
  (main args environ w).2 = MainReturned ∧
  stdout (main args environ w).1
  = stdout w ++
    ["Searching Reddit for: " +:+ String.concat ", " (parse_keywords (Args.keywords args));
     scope_line (Args.subreddit args);
     "Found " +:+ pretty (length results) +:+ " mentions";
     match results with
     | [] => "No results found."
     | _ :: _ => "Results saved to " +:+ Args.output args
     end].
Proof.
  intros Hclient Hrun Hopens. rewrite (main_returns _ _ _ _ _ Hclient Hrun Hopens).
  split; [done|]. simpl. destruct results as [|r results].
  - simpl. by rewrite <-!app_assoc.
  - destruct Hopens as [? | Hopens]; [done|].
    rewrite save_to_csv_rows by done. simpl. by rewrite <-!app_assoc.
Qed.

(** X20. When every search comes back empty, [main] reports zero rows and leaves
    all files, the destination included, as they were. *)
Theorem main_nothing_found (args : Args.t) (environ : gmap string string) (w : World)
    (reddit : Client) :
  setup_reddit_client environ = Some reddit →
  (∀ keyword, keyword ∈ parse_keywords (Args.keywords args) →
     submissions_for_checked reddit (Args.subreddit args) (Args.limit args)
       (Args.time args) keyword = Some []) →
  files (main args environ w).1 = files w ∧
  stdout (main args environ w).1
  = stdout w ++
    ["Searching Reddit for: " +:+ String.concat ", " (parse_keywords (Args.keywords args));
     scope_line (Args.subreddit args);
     "Found 0 mentions";
     "No results found."].
Proof.
  intros Hclient Hnone.
  assert (search_reddit_checked reddit (parse_keywords (Args.keywords args))
            (Args.subreddit args) (Args.limit args) (Args.time args) = Some []) as Hrun.
  { unfold search_reddit_checked.
    induction (parse_keywords (Args.keywords args)) as [|k ks IH]; [done|].
    simpl. unfold keyword_step_checked at 1. rewrite Hnone by left. simpl.
    apply IH. intros. apply Hnone. by right. }
  rewrite (main_returns _ _ _ _ _ Hclient Hrun (or_introl eq_refl)).
  split; [done|]. simpl. by rewrite <-!app_assoc.
Qed.

(** X21. When the client is built, the searches return at least one row and
    the destination opens, [main] writes the destination: the header is the
    eleven field names in sorted order, every row under it has eleven
    cells, and there are as many rows as the count in the line [main]
    prints before the line naming the file. *)
Theorem main_writes_table (args : Args.t) (environ : gmap string string) (w : World)
    (reddit : Client) (results : list record) :
  setup_reddit_client environ = Some reddit →
  search_reddit_checked reddit (parse_keywords (Args.keywords args))
    (Args.subreddit args) (Args.limit args) (Args.time args) = Some results →
  results ≠ [] →
  writable w (Args.output args) = true →
  ∃ rows,
    files (main args environ w).1 !! Args.output args
      = Some (sorted_record_fields :: rows) ∧
    length rows = length results ∧
    Forall (λ row, length row = 11%nat) rows ∧
    stdout (main args environ w).1
    = stdout w ++
      ["Searching Reddit for: " +:+
         String.concat ", " (parse_keywords (Args.keywords args));
       scope_line (Args.subreddit args);
       "Found " +:+ pretty (length rows) +:+ " mentions";
       "Results saved to " +:+ Args.output args].
Proof.
  intros Hclient Hrun Hne Hopens.
  rewrite (main_returns _ _ _ _ _ Hclient Hrun (or_intror Hopens)).
  rewrite save_to_csv_rows by done. simpl.
  pose proof (search_reddit_checked_answers _ _ _ _ _ _ Hrun) as Hresults.
  assert (sorted_fieldnames results = sorted_record_fields) as ->.
  { rewrite Hresults. apply search_reddit_header. by rewrite <-Hresults. }
  eexists. split_and!; [apply lookup_insert_eq | by rewrite length_map | |].
  - apply Forall_forall. intros row Hrow.
    apply list_elem_of_fmap in Hrow as (r' & -> & _). by rewrite length_map.
  - rewrite length_map. by rewrite <-!app_assoc.
Qed.

(** X22. However a run of [main] ends, every path other than the destination
    holds what it held before. *)
Theorem main_other_paths (args : Args.t) (environ : gmap string string) (w : World)
    (path : string) :
  path ≠ Args.output args →
  files (main args environ w).1 !! path = files w !! path.
Proof.
  intros Hpath. unfold main.
  destruct (setup_reddit_client environ) as [reddit|]; [|done].
  destruct (search_reddit_checked _ _ _ _ _) as [results|]; [|done].
  pose proof (save_to_csv_other_paths_aux results (Args.output args) path
    (print ("Found " +:+ pretty (length results) +:+ " mentions")
       (print (scope_line (Args.subreddit args))
          (print ("Searching Reddit for: " +:+
                  String.concat ", " (parse_keywords (Args.keywords args))) w)))
    Hpath) as Hsave.
  destruct (save_to_csv results _ _) as [w' []]; exact Hsave.
Qed.


End main_runs.

(** ** The further properties on the sample data *)

Lemma search_reddit_falsy_subreddit_witness :
  opt_truthy (Some EmptyString) = false ∧
  @search_reddit ascii_builtins sample_reddit ["Rust"; "go"] (Some EmptyString) 2 "week"
  = @search_reddit ascii_builtins sample_reddit ["Rust"; "go"] None 2 "week".
Proof.
  split; [reflexivity|].
  exact (@search_reddit_falsy_subreddit ascii_builtins sample_reddit ["Rust"; "go"]
           (Some EmptyString) 2 "week" eq_refl).
Defined.

Lemma search_reddit_queries_witness :
  (∀ keyword, keyword ∈ ["Rust"; "go"] →
     subreddit_search sample_reddit (search_scope None) (dquote +:+ keyword +:+ dquote)
       "new" "week" 2
     = subreddit_search newest_only_reddit (search_scope None)
         (dquote +:+ keyword +:+ dquote) "new" "week" 2) ∧
  @search_reddit ascii_builtins sample_reddit ["Rust"; "go"] None 2 "week"
  = @search_reddit ascii_builtins newest_only_reddit ["Rust"; "go"] None 2 "week".
Proof.
  assert (∀ keyword, keyword ∈ ["Rust"; "go"] →
     subreddit_search sample_reddit (search_scope None) (dquote +:+ keyword +:+ dquote)
       "new" "week" 2
     = subreddit_search newest_only_reddit (search_scope None)
         (dquote +:+ keyword +:+ dquote) "new" "week" 2) as Hagree
    by (intros keyword _; reflexivity).
  split; [exact Hagree|].
  exact (@search_reddit_queries ascii_builtins sample_reddit newest_only_reddit
           ["Rust"; "go"] None 2 "week" Hagree).
Defined.

Lemma empty_keyword_matches_all_witness :
  ascii_str_lower EmptyString = EmptyString ∧
  length (@submission_step ascii_builtins EmptyString [] link_post) = 4%nat.
Proof.
  split; [reflexivity|].
  rewrite (@empty_keyword_matches_all ascii_builtins link_post eq_refl []).
  reflexivity.
Defined.

Lemma keyword_case_irrelevant_witness :
  ascii_str_lower "Rust" = ascii_str_lower "RUST" ∧
  delete "keyword" <$> @submission_step ascii_builtins "Rust" [] link_post
  = delete "keyword" <$> @submission_step ascii_builtins "RUST" [] link_post.
Proof.
  split; [reflexivity|].
  exact (@keyword_case_irrelevant ascii_builtins "Rust" "RUST" link_post [] eq_refl).
Defined.

Lemma save_to_csv_other_paths_witness :
  ("notes.txt" ≠ "out.csv" ∨ sample_rows = []) ∧
  files (save_to_csv sample_rows "out.csv" notes_world).1 !! "notes.txt"
  = Some [["kept"]].
Proof.
  assert ("notes.txt" ≠ "out.csv" ∨ sample_rows = []) as Hpath by (left; discriminate).
  split; [exact Hpath|].
  exact (save_to_csv_other_paths sample_rows "out.csv" "notes.txt" notes_world Hpath).
Defined.

Lemma save_to_csv_overwrites_witness :
  sample_rows ≠ [] ∧
  writable empty_world "out.csv" = true ∧
  writable stale_world "out.csv" = true ∧
  files (save_to_csv sample_rows "out.csv" empty_world).1 !! "out.csv"
  = files (save_to_csv sample_rows "out.csv" stale_world).1 !! "out.csv".
Proof.
  assert (sample_rows ≠ []) as Hne by discriminate.
  split_and!; [exact Hne | reflexivity | reflexivity |].
  exact (proj1 (save_to_csv_overwrites sample_rows "out.csv" empty_world stale_world
                  Hne eq_refl eq_refl)).
Defined.

Lemma save_to_csv_table_witness :
  sample_rows ≠ [] ∧
  writable empty_world "out.csv" = true ∧
  ∃ rows,
    files (save_to_csv sample_rows "out.csv" empty_world).1 !! "out.csv"
      = Some (sorted_fieldnames sample_rows :: rows) ∧
    length rows = length sample_rows ∧
    Forall (λ row, length row = length (sorted_fieldnames sample_rows)) rows.
Proof.
  assert (sample_rows ≠ []) as Hne by discriminate.
  split_and!; [exact Hne | reflexivity |].
  exact (save_to_csv_table sample_rows "out.csv" empty_world Hne eq_refl).
Defined.

Lemma save_to_csv_cell_witness :
  sample_rows !! 1%nat = Some (py_dict [("author", VStr "alice"); ("title", VStr "a")]) ∧
  sorted_fieldnames sample_rows !! 1%nat = Some "score" ∧
  writable empty_world "out.csv" = true ∧
  ∃ rows row,
    files (save_to_csv sample_rows "out.csv" empty_world).1 !! "out.csv"
      = Some (sorted_fieldnames sample_rows :: rows) ∧
    rows !! 1%nat = Some row ∧
    row !! 1%nat = Some EmptyString.
Proof.
  assert (sorted_fieldnames sample_rows !! 1%nat = Some "score") as Hi by by vm_compute.
  split_and!; [reflexivity | exact Hi | reflexivity |].
  exact (save_to_csv_cell sample_rows "out.csv" empty_world 1 1 _ "score" eq_refl Hi
           eq_refl).
Defined.


Lemma search_reddit_checked_sound_witness :
  @search_reddit_checked ascii_builtins sample_externals sample_client ["Rust"; "go"]
    None 2 "week" = Some sample_output ∧
  sample_output
  = @search_reddit ascii_builtins (answers sample_client) ["Rust"; "go"] None 2 "week".
Proof.
  assert (@search_reddit_checked ascii_builtins sample_externals sample_client
            ["Rust"; "go"] None 2 "week" = Some sample_output) as Hrun by reflexivity.
  split; [exact Hrun|].
  exact (proj1 (@search_reddit_checked_sound ascii_builtins sample_externals
                  sample_client ["Rust"; "go"] None 2 "week" sample_output Hrun)).
Defined.

Lemma sample_client_listings (keyword : string) :
  keyword ∈ ["Rust"; "go"] →
  is_Some (submissions_for_checked sample_client None 2 "week" keyword).
Proof. intros _. by eexists. Qed.

Lemma sample_client_items (keyword : string) (submission : Submission.t) :
  keyword ∈ ["Rust"; "go"] →
  submission ∈ submissions_for (answers sample_client) None 2 "week" keyword →
  sample_fromtimestamp_raises (Submission.created_utc submission) = false ∧
  comments_raise sample_client submission = false ∧
  ∀ comment, comment ∈ Submission.comments submission →
    str_in (ascii_str_lower keyword) (ascii_str_lower (Comment.body comment)) = true →
    sample_fromtimestamp_raises (Comment.created_utc comment) = false.
Proof.
  intros _ Hs. change (submission ∈ [link_post; text_post]) in Hs.
  apply elem_of_cons in Hs as [->|Hs];
    [|apply elem_of_cons in Hs as [->|Hs]; [|by apply elem_of_nil in Hs]].
  - split_and!; [done..|]. intros comment Hc _. simpl in Hc.
    repeat (apply elem_of_cons in Hc as [->|Hc]; [done|]).
    by apply elem_of_nil in Hc.
  - split_and!; [done..|]. intros comment Hc. by apply elem_of_nil in Hc.
Qed.

Lemma search_reddit_checked_returns_witness :
  (∀ keyword, keyword ∈ ["Rust"; "go"] →
     is_Some (submissions_for_checked sample_client None 2 "week" keyword)) ∧
  @search_reddit_checked ascii_builtins sample_externals sample_client ["Rust"; "go"]
    None 2 "week"
  = Some (@search_reddit ascii_builtins (answers sample_client) ["Rust"; "go"] None 2
            "week").
Proof.
  split; [exact sample_client_listings|].
  exact (@search_reddit_checked_returns ascii_builtins sample_externals sample_client
           ["Rust"; "go"] None 2 "week" sample_client_listings sample_client_items).
Defined.

Lemma main_report_witness :
  @setup_reddit_client sample_externals sample_environ = Some sample_client ∧
  @search_reddit_checked ascii_builtins sample_externals sample_client
    (@parse_keywords sample_externals (Args.keywords sample_args))
    (Args.subreddit sample_args) (Args.limit sample_args) (Args.time sample_args)
    = Some sample_output ∧
  (sample_output = [] ∨ writable empty_world (Args.output sample_args) = true) ∧
  (@main ascii_builtins sample_externals sample_args sample_environ empty_world).2
    = MainReturned ∧
  stdout (@main ascii_builtins sample_externals sample_args sample_environ empty_world).1
    = ["Searching Reddit for: Rust, go"; "Across all of Reddit"; "Found 6 mentions";
       "Results saved to out.csv"].
Proof.
  assert (@setup_reddit_client sample_externals sample_environ = Some sample_client)
    as Hclient by reflexivity.
  assert (@search_reddit_checked ascii_builtins sample_externals sample_client
            (@parse_keywords sample_externals (Args.keywords sample_args))
            (Args.subreddit sample_args) (Args.limit sample_args) (Args.time sample_args)
          = Some sample_output) as Hrun by reflexivity.
  assert (sample_output = [] ∨ writable empty_world (Args.output sample_args) = true)
    as Hopens by (right; reflexivity).
  pose proof (@main_report ascii_builtins sample_externals sample_args sample_environ
                empty_world sample_client sample_output Hclient Hrun Hopens)
    as [Hreturned Hlines].
  split_and!; [exact Hclient | exact Hrun | exact Hopens | exact Hreturned |].
  rewrite Hlines. reflexivity.
Defined.

Lemma main_nothing_found_witness :
  @setup_reddit_client silent_externals sample_environ = Some silent_reddit ∧
  (∀ keyword, keyword ∈ @parse_keywords silent_externals (Args.keywords sample_args) →
     submissions_for_checked silent_reddit (Args.subreddit sample_args)
       (Args.limit sample_args) (Args.time sample_args) keyword = Some []) ∧
  files (@main ascii_builtins silent_externals sample_args sample_environ empty_world).1
    = ∅ ∧
  stdout (@main ascii_builtins silent_externals sample_args sample_environ empty_world).1
    = ["Searching Reddit for: Rust, go"; "Across all of Reddit"; "Found 0 mentions";
       "No results found."].
Proof.
  assert (@setup_reddit_client silent_externals sample_environ = Some silent_reddit)
    as Hclient by reflexivity.
  assert (∀ keyword,
     keyword ∈ @parse_keywords silent_externals (Args.keywords sample_args) →
     submissions_for_checked silent_reddit (Args.subreddit sample_args)
       (Args.limit sample_args) (Args.time sample_args) keyword = Some [])
    as Hnone by (intros keyword _; reflexivity).
  pose proof (@main_nothing_found ascii_builtins silent_externals sample_args
                sample_environ empty_world silent_reddit Hclient Hnone)
    as [Hfiles Hlines].
  split_and!; [exact Hclient | exact Hnone | exact Hfiles |].
  rewrite Hlines. reflexivity.
Defined.

Lemma main_writes_table_witness :
  @setup_reddit_client sample_externals sample_environ = Some sample_client ∧
  @search_reddit_checked ascii_builtins sample_externals sample_client
    (@parse_keywords sample_externals (Args.keywords sample_args))
    (Args.subreddit sample_args) (Args.limit sample_args) (Args.time sample_args)
    = Some sample_output ∧
  sample_output ≠ [] ∧
  writable empty_world (Args.output sample_args) = true ∧
  ∃ rows,
    files (@main ascii_builtins sample_externals sample_args sample_environ
             empty_world).1 !! "out.csv"
      = Some (sorted_record_fields :: rows) ∧
    length rows = 6%nat.
Proof.
  assert (@setup_reddit_client sample_externals sample_environ = Some sample_client)
    as Hclient by reflexivity.
  assert (@search_reddit_checked ascii_builtins sample_externals sample_client
            (@parse_keywords sample_externals (Args.keywords sample_args))
            (Args.subreddit sample_args) (Args.limit sample_args) (Args.time sample_args)
          = Some sample_output) as Hrun by reflexivity.
  assert (sample_output ≠ []) as Hne by discriminate.
  destruct (@main_writes_table ascii_builtins sample_externals sample_args sample_environ
              empty_world sample_client sample_output Hclient Hrun Hne eq_refl)
    as (rows & Hfile & Hlen & _).
  split_and!; [exact Hclient | exact Hrun | exact Hne | reflexivity |].
  exists rows. split; [exact Hfile|]. rewrite Hlen. reflexivity.
Defined.

Lemma main_other_paths_witness :
  "notes.txt" ≠ Args.output sample_args ∧
  files (@main ascii_builtins sample_externals sample_args sample_environ
           notes_world).1 !! "notes.txt"
  = Some [["kept"]].
Proof.
  assert ("notes.txt" ≠ Args.output sample_args) as Hpath by discriminate.
  split; [exact Hpath|].
  exact (@main_other_paths ascii_builtins sample_externals sample_args sample_environ
           notes_world "notes.txt" Hpath).
Defined.


Lemma comment_author_of_deleted_account_witness :
  Comment.author comment_orphan = None ∧
  @comment_data ascii_builtins "Rust" link_post comment_orphan !! "author"
  = Some (VStr "[deleted]").
Proof.
  split; [reflexivity|].
  exact (@comment_author_of_deleted_account ascii_builtins "Rust" link_post
           comment_orphan eq_refl).
Defined.
